(** * browser-realm: a secure evaluator behind a membrane

    A shallow embedding of [src/browser-realm.ts].  The module builds a second
    realm inside a detached iframe, pairs the raw and the secure object graphs
    through a membrane ([SecureEnvironment]) and returns an evaluator that runs
    source text in the secure realm and re-throws failures as raw errors.

    The program is written in a state-and-exception monad over a world made
    of the object heap of both realms, the store of membrane instances and a
    log of the calls the program makes, in program order.

    What the model fixes.  Objects are ordinary objects: own properties, a
    prototype, and whether they can be called or constructed; property reads
    walk the prototype chain and run getters.  The behaviour of functions
    (DOM methods, accessors, raw constructors, the secure [eval] and with it
    the untrusted source text) belongs to the host, a parameter that acts on
    the heap and on nothing else.  The membrane engine [./environment] is a
    parameter too; [SpecMembrane] is the engine the spec describes.  The
    list [ReflectiveDOMObjectNames] of [./shared] is a parameter. *)

From Stdlib Require Import ZArith String List.
From stdpp Require Import base option list gmap strings pretty.

Local Open Scope string_scope.
Local Open Scope Z_scope.
Local Open Scope list_scope.

(** ** Values, property descriptors and objects *)

Definition loc := positive.

(** The language values the program handles. *)
Inductive value :=
| VUndefined
| VNull
| VBoolean (b : bool)
| VNumber (n : Z)
| VString (s : string)
| VObject (l : loc).

#[global] Instance value_eq_dec : EqDecision value.
Proof. solve_decision. Defined.

(** An own-property descriptor: a data property or an accessor pair. *)
Inductive descriptor :=
| DataDescriptor (v : value) (writable enumerable configurable : bool)
| AccessorDescriptor (getter setter : value) (enumerable configurable : bool).

#[global] Instance descriptor_eq_dec : EqDecision descriptor.
Proof. solve_decision. Defined.

(** [PropertyDescriptorMap]: what [getOwnPropertyDescriptors] returns, a map
    from property names to descriptors; [delete m.k] is [delete k m]. *)
Abbreviation PropertyDescriptorMap := (gmap string descriptor).

(** The realm an object was created in. *)
Inductive realm_tag := RawRealm | SecureRealm.

#[global] Instance realm_tag_eq_dec : EqDecision realm_tag.
Proof. solve_decision. Defined.

(** Whether an object has a [[Call]] and a [[Construct]] internal method. *)
Inductive callability := NotCallable | CallableOnly | Constructor.

Definition IsCallable (c : callability) : bool :=
  match c with NotCallable => false | _ => true end.

Definition IsConstructor (c : callability) : bool :=
  match c with Constructor => true | _ => false end.

Record object := mkObject {
  o_realm : realm_tag;
  o_proto : value;
  o_props : gmap string descriptor;
  o_fn : callability
}.

Abbreviation heap := (gmap loc object).

(** The optional [distortionMap] argument: raw value to substitute raw value. *)
Abbreviation DistortionMap := (gmap loc value).

(** ** Completions and the log of calls *)

Inductive completion (A : Type) :=
| Normal (a : A)
| Throw (v : value).
Arguments Normal {A} a.
Arguments Throw {A} v.

(** The calls of the program that the properties below speak about, recorded
    in program order.  Membrane events carry the identity of the membrane
    instance. *)
Inductive event :=
| EvMethod (this : value) (name : string) (args : list value)
| EvCall (f : value) (args : list value)
| EvNewEnv (env : nat) (rawGlobalThis secureGlobalThis : value)
           (distortionMap : option DistortionMap)
| EvRemap (env : nat) (secureNode rawNode : value)
          (descriptors : PropertyDescriptorMap)
| EvGetSecureValue (env : nat) (raw result : value)
| EvGetRawRef (env : nat) (v : value)
| EvSetPrototypeOf (target proto : value)
| EvConstruct (target : value) (args : list value)
| EvErrorCreate (message : value).

(** ** The collaborators *)

(** The host: what running a native or a user function does to the heap.
    Functions are heap objects; the host gives their behaviour.  This covers
    the DOM methods, accessors, raw constructors and the secure realm's
    indirect [eval], whose argument is the untrusted source text. *)
Class Host := {
  host_call : loc -> value -> list value -> heap -> completion value * heap;
  host_construct : loc -> list value -> heap -> completion value * heap
}.

(** The intrinsics of the realm the module's own code runs in (the raw one):
    its global object and the prototypes the engine uses for the errors it
    raises and for property reads on primitives. *)
Class Intrinsics := {
  globalThis : loc;
  ErrorPrototype : loc;
  TypeErrorPrototype : loc;
  ReferenceErrorPrototype : loc;
  BooleanPrototype : loc;
  NumberPrototype : loc;
  StringPrototype : loc
}.

(** [./environment]: the membrane engine, consumed through four operations
    on a membrane instance of state [St]. *)
Class MembraneEngine (St : Type) := {
  m_new : value -> value -> option DistortionMap -> heap -> completion St * heap;
  m_remap : value -> value -> PropertyDescriptorMap -> St -> heap ->
            completion unit * St * heap;
  m_getSecureValue : value -> St -> heap -> completion value * St * heap;
  m_getRawRef : value -> St -> heap -> completion value * St * heap
}.

(** [./shared]: the ordered list of reflective global names. *)
Class Shared := {
  ReflectiveDOMObjectNames : list string
}.

(** ** The world and the monad *)

Record world (St : Type) := mkWorld {
  w_heap : heap;
  w_envs : list St;
  w_log : list event
}.
Arguments mkWorld {St} _ _ _.
Arguments w_heap {St} _.
Arguments w_envs {St} _.
Arguments w_log {St} _.

Definition JS (St A : Type) : Type := world St -> completion A * world St.

Definition ret {St A} (a : A) : JS St A := fun w => (Normal a, w).

Definition throw {St A} (v : value) : JS St A := fun w => (Throw v, w).

Definition bind {St A B} (m : JS St A) (f : A -> JS St B) : JS St B :=
  fun w =>
    match m w with
    | (Normal a, w1) => f a w1
    | (Throw v, w1) => (Throw v, w1)
    end.

(** [try { m } catch (e) { handler e }] *)
Definition try_catch {St A} (m : JS St A) (handler : value -> JS St A) : JS St A :=
  fun w =>
    match m w with
    | (Normal a, w1) => (Normal a, w1)
    | (Throw v, w1) => handler v w1
    end.

Declare Scope js_scope.
Delimit Scope js_scope with js.
Notation "'let*' x ':=' m 'in' k" := (bind m (fun x => k))
  (at level 10, x name, m at level 100, k at level 200) : js_scope.
Notation "m ';;;' k" := (bind m (fun _ => k))
  (at level 100, k at level 200, right associativity) : js_scope.

Definition log {St} (e : event) : JS St unit :=
  fun w => (Normal tt, mkWorld (w_heap w) (w_envs w) (w_log w ++ [e])).

(** Run a heap transformer of the host. *)
Definition lift_heap {St A} (f : heap -> completion A * heap) : JS St A :=
  fun w => let '(r, h) := f (w_heap w) in (r, mkWorld h (w_envs w) (w_log w)).

Definition alloc {St} (o : object) : JS St loc :=
  fun w => let l := fresh (dom (w_heap w)) in
           (Normal l, mkWorld (<[l := o]> (w_heap w)) (w_envs w) (w_log w)).

(** Define, or redefine, the own property [k] of the object at [l]. *)
Definition define_own (l : loc) (k : string) (d : descriptor) (h : heap) : heap :=
  match h !! l with
  | Some o => <[l := mkObject (o_realm o) (o_proto o) (<[k := d]> (o_props o)) (o_fn o)]> h
  | None => h
  end.

(** ** The engine: property access, calls and the reflective primitives *)

Section Engine.
Context {St : Type} {host : Host} {intr : Intrinsics}.
Local Open Scope js_scope.

(** An error object created by the engine, or by the module's own code, in
    the raw realm. *)
Definition error_object (proto : loc) (message : value) : object :=
  mkObject RawRealm (VObject proto)
    {[ "message" := DataDescriptor message true false true ]} NotCallable.

Definition throw_error {A} (proto : loc) (message : string) : JS St A :=
  let* l := alloc (error_object proto (VString message)) in
  throw (VObject l).

Definition throwTypeError {A} (message : string) : JS St A :=
  throw_error TypeErrorPrototype message.

(** The first descriptor for [k] along the prototype chain that starts at
    [l].  The chain of a well-formed heap has no cycle, so it is no longer
    than the heap is large; the callers pass that bound as [fuel]. *)
Fixpoint find_property (fuel : nat) (h : heap) (l : loc) (k : string) : option descriptor :=
  match h !! l with
  | None => None
  | Some o =>
      match o_props o !! k with
      | Some d => Some d
      | None =>
          match o_proto o, fuel with
          | VObject p, S fuel' => find_property fuel' h p k
          | _, _ => None
          end
      end
  end.

Definition chain_bound (h : heap) : nat := S (size h).

(** [[Call]]: a [TypeError] unless [f] is a callable object; then the host
    runs the function. *)
Definition Call (f this : value) (args : list value) : JS St value :=
  fun w =>
    match f with
    | VObject l =>
        match w_heap w !! l with
        | Some o =>
            if IsCallable (o_fn o) then lift_heap (host_call l this args) w
            else throwTypeError "not a function" w
        | None => throwTypeError "not a function" w
        end
    | _ => throwTypeError "not a function" w
    end.

(** The own properties of a string primitive: its characters and [length].
    The strings of the model are byte strings: for a text within ASCII the
    indices and the length are those of JavaScript; outside ASCII they are
    those of the UTF-8 encoding, where JavaScript counts UTF-16 code
    units. *)
Definition string_own_props (s : string) : gmap string descriptor :=
  <[ "length" := DataDescriptor (VNumber (Z.of_nat (String.length s))) false false false ]>
    (list_to_map
       (imap (fun i c => (pretty i, DataDescriptor (VString (String c EmptyString)) false true false))
             (list_ascii_of_string s))).

(** [[Get]] on an object, with the receiver the read started from. *)
Definition OrdinaryGet (l : loc) (k : string) (receiver : value) : JS St value :=
  fun w =>
    match find_property (chain_bound (w_heap w)) (w_heap w) l k with
    | Some (DataDescriptor v _ _ _) => (Normal v, w)
    | Some (AccessorDescriptor VUndefined _ _ _) => (Normal VUndefined, w)
    | Some (AccessorDescriptor g _ _ _) => Call g receiver [] w
    | None => (Normal VUndefined, w)
    end.

(** [v[k]] and [v.k]: a [TypeError] on [undefined] and [null]; a primitive
    reads through the prototype of its type in the running (raw) realm. *)
Definition GetV (v : value) (k : string) : JS St value :=
  match v with
  | VUndefined | VNull => throwTypeError "cannot read properties of undefined or null"
  | VObject l => OrdinaryGet l k v
  | VBoolean _ => OrdinaryGet BooleanPrototype k v
  | VNumber _ => OrdinaryGet NumberPrototype k v
  | VString s =>
      match string_own_props s !! k with
      | Some (DataDescriptor x _ _ _) => ret x
      | _ => OrdinaryGet StringPrototype k v
      end
  end.

(** A free identifier of the module ([document]) is resolved on the global
    object: a [ReferenceError] when the global has no such property. *)
Definition ResolveGlobal (name : string) : JS St value :=
  fun w =>
    match find_property (chain_bound (w_heap w)) (w_heap w) globalThis name with
    | Some _ => GetV (VObject globalThis) name w
    | None => throw_error ReferenceErrorPrototype "is not defined" w
    end.

Definition set_own (l : loc) (k : string) (d : descriptor) : JS St unit :=
  fun w => (Normal tt, mkWorld (define_own l k d (w_heap w)) (w_envs w) (w_log w)).

(** [o.k = v] in strict code: a setter found along the chain is called; a
    writable data property, or none, leads to an own data property of the
    receiver; anything else is a [TypeError]. *)
Definition PutV (o : value) (k : string) (v : value) : JS St unit :=
  fun w =>
    let h := w_heap w in
    match o with
    | VUndefined | VNull => throwTypeError "cannot set properties of undefined or null" w
    | VObject l =>
        match find_property (chain_bound h) h l k with
        | Some (AccessorDescriptor _ VUndefined _ _) => throwTypeError "property has only a getter" w
        | Some (AccessorDescriptor _ setter _ _) => (Call setter o [v] ;;; ret tt) w
        | Some (DataDescriptor _ false _ _) => throwTypeError "read-only property" w
        | Some (DataDescriptor _ true _ _) | None =>
            match h !! l with
            | Some obj =>
                match o_props obj !! k with
                | Some (DataDescriptor _ true e c) => set_own l k (DataDescriptor v true e c) w
                | Some _ => throwTypeError "read-only property" w
                | None => set_own l k (DataDescriptor v true true true) w
                end
            | None => throwTypeError "not an object" w
            end
        end
    | VBoolean _ | VNumber _ | VString _ =>
        let p := match o with
                 | VBoolean _ => BooleanPrototype
                 | VNumber _ => NumberPrototype
                 | _ => StringPrototype
                 end in
        match find_property (chain_bound h) h p k with
        | Some (AccessorDescriptor _ (VObject s) _ _) => (Call (VObject s) o [v] ;;; ret tt) w
        | _ => throwTypeError "cannot create property on a primitive" w
        end
    end.

(** [this.name(args)]: read the method, then call it on [this]. *)
Definition CallMethod (this : value) (name : string) (args : list value) : JS St value :=
  let* f := GetV this name in
  log (EvMethod this name args) ;;;
  Call f this args.

(** [f(args)] with no receiver. *)
Definition CallFunction (f : value) (args : list value) : JS St value :=
  log (EvCall f args) ;;;
  Call f VUndefined args.

(** [ReflectGetPrototypeOf] of [./shared]: [Reflect.getPrototypeOf]. *)
Definition ReflectGetPrototypeOf (v : value) : JS St value :=
  fun w =>
    match v with
    | VObject l =>
        match w_heap w !! l with
        | Some o => (Normal (o_proto o), w)
        | None => throwTypeError "Reflect.getPrototypeOf called on non-object" w
        end
    | _ => throwTypeError "Reflect.getPrototypeOf called on non-object" w
    end.

(** Whether [target] is reachable from [l] along the prototype chain. *)
Fixpoint on_chain (fuel : nat) (h : heap) (l target : loc) : bool :=
  if decide (l = target) then true
  else match h !! l, fuel with
       | Some o, S fuel' =>
           match o_proto o with
           | VObject p => on_chain fuel' h p target
           | _ => false
           end
       | _, _ => false
       end.

(** [ReflectSetPrototypeOf] of [./shared]: [Reflect.setPrototypeOf]; the
    result says whether the prototype was set (a cycle is refused). *)
Definition ReflectSetPrototypeOf (target proto : value) : JS St bool :=
  log (EvSetPrototypeOf target proto) ;;;
  fun w =>
    let h := w_heap w in
    match target with
    | VObject l =>
        match h !! l with
        | Some o =>
            let set_it := (Normal true,
                 mkWorld (<[l := mkObject (o_realm o) proto (o_props o) (o_fn o)]> h)
                         (w_envs w) (w_log w)) in
            match proto with
            | VNull => set_it
            | VObject p =>
                if on_chain (chain_bound h) h p l then (Normal false, w) else set_it
            | _ => throwTypeError "Object prototype may only be an Object or null" w
            end
        | None => throwTypeError "Reflect.setPrototypeOf called on non-object" w
        end
    | _ => throwTypeError "Reflect.setPrototypeOf called on non-object" w
    end.

(** [getOwnPropertyDescriptors] of [./shared]:
    [Object.getOwnPropertyDescriptors], a fresh map of the own descriptors. *)
Definition getOwnPropertyDescriptors (v : value) : JS St PropertyDescriptorMap :=
  fun w =>
    match v with
    | VUndefined | VNull => throwTypeError "cannot convert undefined or null to object" w
    | VBoolean _ | VNumber _ => (Normal ∅, w)
    | VString s => (Normal (string_own_props s), w)
    | VObject l =>
        match w_heap w !! l with
        | Some o => (Normal (o_props o), w)
        | None => (Normal ∅, w)
        end
    end.

(** [construct] of [./shared]: [Reflect.construct]. *)
Definition construct (target : value) (args : list value) : JS St value :=
  log (EvConstruct target args) ;;;
  fun w =>
    match target with
    | VObject l =>
        match w_heap w !! l with
        | Some o =>
            if IsConstructor (o_fn o) then lift_heap (host_construct l args) w
            else throwTypeError "not a constructor" w
        | None => throwTypeError "not a constructor" w
        end
    | _ => throwTypeError "not a constructor" w
    end.

(** Modelled from the spec: [ErrorCreate] of [./shared] is not in the
    sources; the spec names it create-error-from-message, the creation of a
    generic raw-realm error that carries the message. *)
Definition ErrorCreate (message : value) : JS St value :=
  log (EvErrorCreate message) ;;;
  let* l := alloc (error_object ErrorPrototype message) in
  ret (VObject l).

End Engine.

(** ** The membrane instance, as the module drives it *)

Section Program.
Context {St : Type} {host : Host} {intr : Intrinsics}
        {membrane : MembraneEngine St} {shared : Shared}.
Local Open Scope js_scope.

(** A method call on the membrane instance [env]; the instance is a shared
    mutable object, kept in the store of the world. *)
Definition with_env {A} (env : nat) (f : St -> heap -> completion A * St * heap) : JS St A :=
  fun w =>
    match w_envs w !! env with
    | Some st =>
        let '(r, st', h') := f st (w_heap w) in
        (r, mkWorld h' (<[env := st']> (w_envs w)) (w_log w))
    | None => throwTypeError "not a membrane instance" w
    end.

(** [new SecureEnvironment({ rawGlobalThis, secureGlobalThis, distortionMap })] *)
Definition new_SecureEnvironment (rawGlobalThis secureGlobalThis : value)
    (distortionMap : option DistortionMap) : JS St nat :=
  fun w =>
    let env := length (w_envs w) in
    (log (EvNewEnv env rawGlobalThis secureGlobalThis distortionMap) ;;;
     fun w1 =>
       match m_new rawGlobalThis secureGlobalThis distortionMap (w_heap w1) with
       | (Normal st, h) => (Normal env, mkWorld h (w_envs w1 ++ [st]) (w_log w1))
       | (Throw v, h) => (Throw v, mkWorld h (w_envs w1) (w_log w1))
       end) w.

(** [env.remap(a, b, descriptors)]; the engine's signature is
    [remap(secureNode, rawNode, descriptors)]. *)
Definition env_remap (env : nat) (a b : value) (descriptors : PropertyDescriptorMap) : JS St unit :=
  log (EvRemap env a b descriptors) ;;;
  with_env env (m_remap a b descriptors).

(** [env.getSecureValue(raw)] *)
Definition env_getSecureValue (env : nat) (raw : value) : JS St value :=
  let* v := with_env env (m_getSecureValue raw) in
  log (EvGetSecureValue env raw v) ;;;
  ret v.

(** [env.getRawRef(v)] *)
Definition env_getRawRef (env : nat) (v : value) : JS St value :=
  log (EvGetRawRef env v) ;;;
  with_env env (m_getRawRef v).

(** ** Module load (lines 12-18) *)

(** The module-level constants. *)
Record ModuleConstants := mkModule {
  rawWindow : value;
  rawDocument : value;
  rawWindowProto : value;
  rawWindowPropertiesProto : value;
  rawEventTargetProto : value
}.

Definition module_load : JS St ModuleConstants :=
  let* rawWindow := GetV (VObject globalThis) "window" in
  let* rawDocument := GetV (VObject globalThis) "document" in
  let* rawWindowProto := ReflectGetPrototypeOf rawWindow in
  let* rawWindowPropertiesProto := ReflectGetPrototypeOf rawWindowProto in
  let* rawEventTargetProto := ReflectGetPrototypeOf rawWindowPropertiesProto in
  ret (mkModule rawWindow rawDocument rawWindowProto rawWindowPropertiesProto
                rawEventTargetProto).

(** ** [createSecureEnvironment] (lines 20-105) *)

(** What the returned closure captures. *)
Record Evaluator := mkEvaluator {
  secureIndirectEval : value;
  env : nat
}.

Definition is_undefined (v : value) : bool :=
  match v with VUndefined => true | _ => false end.

(** Lines 53-56: the descriptors that are never installed. *)
Definition denylist : list string := ["location"; "EventTarget"; "document"; "window"].

Definition remove_denylisted (rawGlobalThisDescriptors : PropertyDescriptorMap) : PropertyDescriptorMap :=
  let d := delete "location" rawGlobalThisDescriptors in
  let d := delete "EventTarget" d in
  let d := delete "document" d in
  delete "window" d.

(** Lines 69-75: the loop over [ReflectiveDOMObjectNames], from index [i] on;
    the result is [rawGlobalThisDescriptors] after the loop's deletions. *)
Fixpoint remap_reflective (m : ModuleConstants) (env : nat) (secureWindow : value)
    (names : list string) (rawGlobalThisDescriptors : PropertyDescriptorMap)
    : JS St PropertyDescriptorMap :=
  match names with
  | [] => ret rawGlobalThisDescriptors
  | key :: rest =>
      let* r := GetV (rawWindow m) key in
      let* both :=
        (if is_undefined r then ret false
         else let* s := GetV secureWindow key in ret (negb (is_undefined s))) in
      if both : bool then
        let rawGlobalThisDescriptors := delete key rawGlobalThisDescriptors in
        let* a := GetV (rawWindow m) key in
        let* b := GetV secureWindow key in
        let* c := GetV (rawWindow m) key in
        let* d := getOwnPropertyDescriptors c in
        env_remap env a b d ;;;
        remap_reflective m env secureWindow rest rawGlobalThisDescriptors
      else
        remap_reflective m env secureWindow rest rawGlobalThisDescriptors
  end.

Definition createSecureEnvironment (m : ModuleConstants)
    (distortionMap : option DistortionMap) : JS St Evaluator :=
  let* document := ResolveGlobal "document" in
  let* iframe := CallMethod document "createElement" [VString "iframe"] in
  CallMethod iframe "setAttribute"
    [VString "sandbox"; VString "allow-same-origin allow-scripts"] ;;;
  let* style := GetV iframe "style" in
  PutV style "display" (VString "none") ;;;
  let* document := ResolveGlobal "document" in
  let* body := GetV document "body" in
  CallMethod body "appendChild" [iframe] ;;;
  let* contentWindow := GetV iframe "contentWindow" in
  let* secureWindow := GetV contentWindow "window" in
  let* secureIndirectEval := GetV secureWindow "eval" in
  CallFunction secureIndirectEval [VString "window"] ;;;
  CallMethod iframe "remove" [] ;;;
  let* secureDocument := GetV secureWindow "document" in
  let* secureWindowProto := ReflectGetPrototypeOf secureWindow in
  let* secureWindowPropertiesProto := ReflectGetPrototypeOf secureWindowProto in
  let* secureEventTargetProto := ReflectGetPrototypeOf secureWindowPropertiesProto in
  let* rawDocumentProto := ReflectGetPrototypeOf (rawDocument m) in
  let* rawGlobalThisDescriptors := getOwnPropertyDescriptors (rawWindow m) in
  let* rawWindowProtoDescriptors := getOwnPropertyDescriptors (rawWindowProto m) in
  let* rawWindowPropertiesProtoDescriptors :=
    getOwnPropertyDescriptors (rawWindowPropertiesProto m) in
  let* rawEventTargetProtoDescriptors := getOwnPropertyDescriptors (rawEventTargetProto m) in
  let rawGlobalThisDescriptors := remove_denylisted rawGlobalThisDescriptors in
  let* env := new_SecureEnvironment (rawWindow m) secureWindow distortionMap in
  env_remap env secureDocument (rawDocument m) ∅ ;;;
  let* wrappedProto := env_getSecureValue env rawDocumentProto in
  ReflectSetPrototypeOf secureDocument wrappedProto ;;;
  let* rawGlobalThisDescriptors :=
    remap_reflective m env secureWindow ReflectiveDOMObjectNames rawGlobalThisDescriptors in
  env_remap env secureEventTargetProto (rawEventTargetProto m) rawEventTargetProtoDescriptors ;;;
  env_remap env secureWindowPropertiesProto (rawWindowPropertiesProto m)
    rawWindowPropertiesProtoDescriptors ;;;
  env_remap env secureWindowProto (rawWindowProto m) rawWindowProtoDescriptors ;;;
  env_remap env secureWindow (rawWindow m) rawGlobalThisDescriptors ;;;
  ret (mkEvaluator secureIndirectEval env).

(** The local constants that lines 22-46 leave behind. *)
Record Provisioned := mkProvisioned {
  p_secureWindow : value;
  p_secureIndirectEval : value;
  p_secureDocument : value;
  p_secureWindowProto : value;
  p_secureWindowPropertiesProto : value;
  p_secureEventTargetProto : value;
  p_rawDocumentProto : value
}.

(** Lines 22-46 of [createSecureEnvironment] on their own: the part of the
    function that runs before the raw descriptors are captured.  The world
    it ends in is the one in which lines 47-50 read the descriptors and, no
    statement in between touching the heap, the one in which
    [new SecureEnvironment] is called. *)
Definition provision (m : ModuleConstants) : JS St Provisioned :=
  let* document := ResolveGlobal "document" in
  let* iframe := CallMethod document "createElement" [VString "iframe"] in
  CallMethod iframe "setAttribute"
    [VString "sandbox"; VString "allow-same-origin allow-scripts"] ;;;
  let* style := GetV iframe "style" in
  PutV style "display" (VString "none") ;;;
  let* document := ResolveGlobal "document" in
  let* body := GetV document "body" in
  CallMethod body "appendChild" [iframe] ;;;
  let* contentWindow := GetV iframe "contentWindow" in
  let* secureWindow := GetV contentWindow "window" in
  let* secureIndirectEval := GetV secureWindow "eval" in
  CallFunction secureIndirectEval [VString "window"] ;;;
  CallMethod iframe "remove" [] ;;;
  let* secureDocument := GetV secureWindow "document" in
  let* secureWindowProto := ReflectGetPrototypeOf secureWindow in
  let* secureWindowPropertiesProto := ReflectGetPrototypeOf secureWindowProto in
  let* secureEventTargetProto := ReflectGetPrototypeOf secureWindowPropertiesProto in
  let* rawDocumentProto := ReflectGetPrototypeOf (rawDocument m) in
  ret (mkProvisioned secureWindow secureIndirectEval secureDocument secureWindowProto
         secureWindowPropertiesProto secureEventTargetProto rawDocumentProto).

(** ** The returned evaluator (lines 84-104) *)

(** The handler of the outer [catch (e)]. *)
Definition sanitize (ev : Evaluator) (e : value) : JS St unit :=
  let* message := GetV e "message" in
  let* constructor := GetV e "constructor" in
  let* rawError :=
    try_catch
      (let* rawErrorConstructor := env_getRawRef (env ev) constructor in
       construct rawErrorConstructor [message])
      (fun _ignored => ErrorCreate message) in
  throw rawError.

Definition evaluate (ev : Evaluator) (sourceText : string) : JS St unit :=
  try_catch
    (CallFunction (secureIndirectEval ev) [VString sourceText] ;;; ret tt)
    (sanitize ev).

End Program.

(** ** The log of a run *)

(** A computation is silent when it neither logs nor touches a membrane. *)
Definition silent {St A} (m : JS St A) : Prop :=
  forall w r w', m w = (r, w') -> w_log w' = w_log w /\ w_envs w' = w_envs w.

Definition is_remap (env : nat) (e : event) : Prop :=
  exists a b d, e = EvRemap env a b d.

(** Lines 22-38: the calls that provision the secure realm. *)
Definition provisioning_calls (document iframe body secureIndirectEval : value) : list event :=
  [EvMethod document "createElement" [VString "iframe"];
   EvMethod iframe "setAttribute"
     [VString "sandbox"; VString "allow-same-origin allow-scripts"];
   EvMethod body "appendChild" [iframe];
   EvCall secureIndirectEval [VString "window"];
   EvMethod iframe "remove" []].

(** Lines 65-66: the document pair and the document's prototype. *)
Definition document_calls (env : nat) (secureDocument rawDocument rawDocumentProto
    wrappedProto : value) : list event :=
  [EvRemap env secureDocument rawDocument ∅;
   EvGetSecureValue env rawDocumentProto wrappedProto;
   EvSetPrototypeOf secureDocument wrappedProto].

(** Lines 78-81: the three spine nodes, then the global object. *)
Definition spine_calls (env : nat) (m : ModuleConstants)
    (secureEventTargetProto secureWindowPropertiesProto secureWindowProto secureWindow : value)
    (dEventTarget dWindowProperties dWindowProto dGlobal : PropertyDescriptorMap)
    : list event :=
  [EvRemap env secureEventTargetProto (rawEventTargetProto m) dEventTarget;
   EvRemap env secureWindowPropertiesProto (rawWindowPropertiesProto m) dWindowProperties;
   EvRemap env secureWindowProto (rawWindowProto m) dWindowProto;
   EvRemap env secureWindow (rawWindow m) dGlobal].

(** [p1], [p2] and [p3] are what three steps along the prototype chain of
    [g] read, in one and the same world. *)
Definition spine_read (St : Type) `{!Host, !Intrinsics} (g p1 p2 p3 : value) : Prop :=
  exists w : world St,
    ReflectGetPrototypeOf g w = (Normal p1, w) /\
    ReflectGetPrototypeOf p1 w = (Normal p2, w) /\
    ReflectGetPrototypeOf p2 w = (Normal p3, w).

(** A registration made by the loop over the reflective names: the first
    node is what the key reads on the raw global, the second what it reads
    on the secure global, and the descriptors are the own descriptors of what
    it reads on the raw global, the four reads being made in this order. *)
Definition reflective_call (St : Type) `{!Host, !Intrinsics} (m : ModuleConstants) (env : nat)
    (secureWindow : value) (names : list string) (e : event) : Prop :=
  exists key a b c d (w1 w2 w3 w4 w5 : world St),
    key ∈ names /\
    GetV (rawWindow m) key w1 = (Normal a, w2) /\
    GetV secureWindow key w2 = (Normal b, w3) /\
    GetV (rawWindow m) key w3 = (Normal c, w4) /\
    getOwnPropertyDescriptors c w4 = (Normal d, w5) /\
    e = EvRemap env a b d.


(** A call on a membrane instance, or the creation of one. *)
Definition is_membrane_call (e : event) : bool :=
  match e with
  | EvNewEnv _ _ _ _ | EvRemap _ _ _ _ | EvGetSecureValue _ _ _ | EvGetRawRef _ _ => true
  | _ => false
  end.

(** A call that may write a membrane's tables. *)
Definition writes_membrane (e : event) : bool :=
  match e with
  | EvNewEnv _ _ _ _ | EvRemap _ _ _ _ | EvGetSecureValue _ _ _ => true
  | _ => false
  end.

Definition remap_raw_node (e : event) : option value :=
  match e with EvRemap _ _ rawNode _ => Some rawNode | _ => None end.

(** The raw-side nodes of the fixed registrations among the calls of one
    construction: of the first registration (the document pair) and of the
    last four (the spine and the global object). *)
Definition fixed_raw_nodes (evs : list event) : list value :=
  let nodes := omap remap_raw_node evs in
  take 1 nodes ++ drop (length nodes - 4) nodes.


(** When [m] completes from a store of membranes that satisfies [P], the
    store satisfies [Q] of the result. *)
Definition envs_step {St A} (P : list St -> Prop) (Q : A -> list St -> Prop)
    (m : JS St A) : Prop :=
  forall w a w', P (w_envs w) -> m w = (Normal a, w') -> Q a (w_envs w').

(** The store holds the membranes [before] and one more, whose identity is
    [env]. *)
Definition one_more {St} (before : list St) (env : nat) (envs : list St) : Prop :=
  env = length before /\ exists st, envs = before ++ [st].





(** The calls logged between two worlds. *)
Definition new_events {St} (w w' : world St) : list event :=
  drop (length (w_log w)) (w_log w').

Definition is_object (v : value) : bool :=
  match v with VObject _ => true | _ => false end.

(** Whatever its outcome, [m] makes no call on a membrane and leaves the
    store of membranes as it is. *)
Definition calm {St A} (m : JS St A) : Prop :=
  forall w r w', m w = (r, w') ->
    w_envs w' = w_envs w /\
    exists calls,
      w_log w' = w_log w ++ calls /\
      Forall (fun e => is_membrane_call e = false) calls.

(** [m] never completes: every run of it throws. *)
Definition always_throws {St A} (m : JS St A) : Prop :=
  forall w r w', m w = (r, w') -> exists v, r = Throw v.

(** The calls an evaluation may make after the call of [eval]: none; the
    reverse lookup of [constructor], followed by the construction of the raw
    error, by the creation of the generic one, or by both in this order. *)
Definition sanitizing_calls (env : nat) (calls : list event) : Prop :=
  calls = [] \/
  exists constructor message,
    calls = [EvGetRawRef env constructor; EvErrorCreate message] \/
    exists rawErrorConstructor,
      calls = [EvGetRawRef env constructor; EvConstruct rawErrorConstructor [message]] \/
      calls = [EvGetRawRef env constructor; EvConstruct rawErrorConstructor [message];
               EvErrorCreate message].

(** ** The membrane engine of the spec *)

Module SpecMembrane.

(** Modelled from the spec: [./environment] ([SecureEnvironment]) is not in
    the sources.  The spec gives its contract: [remap(secureNode, rawNode,
    descriptors)] registers a bidirectional correspondence and arranges that
    each supplied property, read from the secure node, yields the
    membrane-wrapped and distortion-substituted raw value; [getSecureValue]
    and [getRawRef] resolve a value in the opposite direction, and [getRawRef]
    returns [undefined] when no correspondence is registered.  The state is
    the table of registered pairs, newest first. *)
Record state := mkState {
  rawGlobalThis : value;
  secureGlobalThis : value;
  distortionMap : option DistortionMap;
  pairs : list (value * value)   (* (secure, raw) *)
}.

Definition register (secure raw : value) (st : state) : state :=
  mkState (rawGlobalThis st) (secureGlobalThis st) (distortionMap st)
          ((secure, raw) :: pairs st).

(** The raw value registered for a secure one. *)
Definition lookup_raw (secure : value) (st : state) : option value :=
  snd <$> List.find (fun p => bool_decide (fst p = secure)) (pairs st).

(** The secure value registered for a raw one. *)
Definition lookup_secure (raw : value) (st : state) : option value :=
  fst <$> List.find (fun p => bool_decide (snd p = raw)) (pairs st).

Definition distort (v : value) (st : state) : value :=
  match v, distortionMap st with
  | VObject l, Some dm => default v (dm !! l)
  | _, _ => v
  end.

(** Modelled from the spec: the membrane-wrapped (and distortion-substituted)
    form of a raw value.  A primitive crosses as it is; an object crosses as
    its registered secure counterpart, or as a fresh secure-realm wrapper
    that is registered on the way (the document's prototype is set to such a
    wrapper before anything but the document pair is registered). *)
Definition wrap (raw : value) (st : state) (h : heap) : value * state * heap :=
  match distort raw st with
  | VObject l =>
      match lookup_secure (VObject l) st with
      | Some s => (s, st, h)
      | None =>
          let p := fresh (dom h) in
          let fn := match h !! l with Some o => o_fn o | None => NotCallable end in
          (VObject p, register (VObject p) (VObject l) st,
           <[p := mkObject SecureRealm VNull ∅ fn]> h)
      end
  | v => (v, st, h)
  end.

Definition wrap_descriptor (d : descriptor) (st : state) (h : heap)
    : descriptor * state * heap :=
  match d with
  | DataDescriptor v w e c =>
      let '(v', st, h) := wrap v st h in (DataDescriptor v' w e c, st, h)
  | AccessorDescriptor g s e c =>
      let '(g', st, h) := wrap g st h in
      let '(s', st, h) := wrap s st h in
      (AccessorDescriptor g' s' e c, st, h)
  end.

(** Install a wrapped descriptor on the secure node. *)
Definition install_one (secureNode : value) (k : string) (d : descriptor) (h : heap) : heap :=
  match secureNode with
  | VObject l => define_own l k d h
  | _ => h
  end.

Fixpoint install (secureNode : value) (ds : list (string * descriptor))
    (st : state) (h : heap) : state * heap :=
  match ds with
  | [] => (st, h)
  | (k, d) :: rest =>
      let '(d', st, h) := wrap_descriptor d st h in
      install secureNode rest st (install_one secureNode k d' h)
  end.

(** Modelled from the spec: [new SecureEnvironment(...)], a membrane with
    no pair registered yet. *)
Definition new (rawGlobalThis secureGlobalThis : value) (dm : option DistortionMap)
    (h : heap) : completion state * heap :=
  (Normal (mkState rawGlobalThis secureGlobalThis dm []), h).

(** Modelled from the spec: [remap(secureNode, rawNode, descriptors)]
    registers the pair and installs every supplied property, wrapped, on the
    secure node. *)
Definition remap (secureNode rawNode : value) (descriptors : PropertyDescriptorMap)
    (st : state) (h : heap) : completion unit * state * heap :=
  let '(st, h) := install secureNode (map_to_list descriptors)
                    (register secureNode rawNode st) h in
  (Normal tt, st, h).

(** Modelled from the spec: [getSecureValue(raw)], the membrane-wrapped form
    of a raw value. *)
Definition getSecureValue (raw : value) (st : state) (h : heap)
    : completion value * state * heap :=
  let '(v, st, h) := wrap raw st h in (Normal v, st, h).

(** Modelled from the spec: [getRawRef(v)], a lookup in the reverse
    direction that reads the table only: the raw value registered for [v],
    [undefined] when there is none. *)
Definition getRawRef (v : value) (st : state) (h : heap)
    : completion value * state * heap :=
  (Normal (default VUndefined (lookup_raw v st)), st, h).

#[global] Instance engine : MembraneEngine state := {
  m_new := new;
  m_remap := remap;
  m_getSecureValue := getSecureValue;
  m_getRawRef := getRawRef
}.

End SpecMembrane.

(** ** A small browser: a concrete host to run the module in *)

Module Browser.
Local Open Scope positive_scope.

Definition data (v : value) : descriptor := DataDescriptor v true true true.

Definition native (r : realm_tag) (name : string) (c : callability) : object :=
  mkObject r VNull {[ "name" := DataDescriptor (VString name) false false true ]} c.

Definition plain (r : realm_tag) (proto : value) (props : list (string * descriptor)) : object :=
  mkObject r proto (list_to_map props) NotCallable.

#[global] Instance intrinsics : Intrinsics := {
  globalThis := 1;
  ErrorPrototype := 14;
  TypeErrorPrototype := 15;
  ReferenceErrorPrototype := 16;
  BooleanPrototype := 17;
  NumberPrototype := 18;
  StringPrototype := 19
}.

(** The trusted document's realm:
    window (1) -> Window.prototype (2) -> WindowProperties (3) ->
    EventTarget.prototype (4). *)
Definition raw_heap : heap :=
  list_to_map [
    (1%positive, plain RawRealm (VObject 2)
          [("window", data (VObject 1)); ("document", data (VObject 5));
           ("location", data (VObject 20)); ("EventTarget", data (VObject 21));
           ("Node", data (VObject 22)); ("TypeError", data (VObject 23));
           ("Error", data (VObject 24)); ("name", data (VString "main"))]);
    (2%positive, plain RawRealm (VObject 3) [("constructor", data (VObject 25))]);
    (3%positive, plain RawRealm (VObject 4) []);
    (4%positive, plain RawRealm VNull [("constructor", data (VObject 21))]);
    (5%positive, plain RawRealm (VObject 6) [("location", data (VObject 20))]);
    (6%positive, plain RawRealm VNull
          [("createElement", data (VObject 8));
           ("body", AccessorDescriptor (VObject 13) VUndefined true true)]);
    (7%positive, plain RawRealm VNull [("appendChild", data (VObject 9))]);
    (8%positive, native RawRealm "createElement" CallableOnly);
    (9%positive, native RawRealm "appendChild" CallableOnly);
    (10%positive, plain RawRealm VNull
          [("setAttribute", data (VObject 11)); ("remove", data (VObject 12))]);
    (11%positive, native RawRealm "setAttribute" CallableOnly);
    (12%positive, native RawRealm "remove" CallableOnly);
    (13%positive, native RawRealm "get body" CallableOnly);
    (14%positive, plain RawRealm VNull
          [("constructor", data (VObject 24)); ("message", data (VString ""))]);
    (15%positive, plain RawRealm (VObject 14) [("constructor", data (VObject 23))]);
    (16%positive, plain RawRealm (VObject 14) []);
    (17%positive, plain RawRealm VNull []);
    (18%positive, plain RawRealm VNull []);
    (19%positive, plain RawRealm VNull []);
    (20%positive, plain RawRealm VNull [("href", data (VString "https://trusted.example/"))]);
    (21%positive, native RawRealm "EventTarget" Constructor);
    (22%positive, native RawRealm "Node" Constructor);
    (23%positive, native RawRealm "TypeError" Constructor);
    (24%positive, native RawRealm "Error" Constructor);
    (25%positive, native RawRealm "Window" Constructor)
  ].

(** The objects of a fresh browsing context, placed from [b] on:
    its window (b) -> Window.prototype (b+1) -> WindowProperties (b+2) ->
    EventTarget.prototype (b+3), its document, [eval] and some globals. *)
Definition realm_objects (b : loc) : list (loc * object) :=
  let at_ (n : positive) := (b + n)%positive in
  [ (b, plain SecureRealm (VObject (at_ 1))
          [("window", data (VObject b)); ("document", data (VObject (at_ 4)));
           ("eval", data (VObject (at_ 6))); ("Node", data (VObject (at_ 7)));
           ("TypeError", data (VObject (at_ 8)));
           ("EventTarget", data (VObject (at_ 10)));
           ("location", data (VObject (at_ 11)))]);
    (at_ 1, plain SecureRealm (VObject (at_ 2)) []);
    (at_ 2, plain SecureRealm (VObject (at_ 3)) []);
    (at_ 3, plain SecureRealm VNull [("constructor", data (VObject (at_ 10)))]);
    (at_ 4, plain SecureRealm (VObject (at_ 5)) []);
    (at_ 5, plain SecureRealm VNull []);
    (at_ 6, mkObject SecureRealm VNull
          (list_to_map [("name", data (VString "eval")); ("[[Realm]]", data (VObject b))])
          CallableOnly);
    (at_ 7, native SecureRealm "Node" Constructor);
    (at_ 8, mkObject SecureRealm VNull
          (list_to_map [("name", data (VString "TypeError"));
                        ("prototype", data (VObject (at_ 9)))])
          Constructor);
    (at_ 9, plain SecureRealm VNull [("constructor", data (VObject (at_ 8)))]);
    (at_ 10, native SecureRealm "EventTarget" Constructor);
    (at_ 11, plain SecureRealm VNull [("href", data (VString "about:blank"))]) ].

Definition function_name (h : heap) (l : loc) : string :=
  match h !! l with
  | Some o =>
      match o_props o !! "name" with
      | Some (DataDescriptor (VString n) _ _ _) => n
      | _ => ""
      end
  | None => ""
  end.

Definition own_value (h : heap) (l : loc) (k : string) : value :=
  match h !! l with
  | Some o =>
      match o_props o !! k with
      | Some (DataDescriptor v _ _ _) => v
      | _ => VUndefined
      end
  | None => VUndefined
  end.

(** The value of the data property [k] found along the chain of [l]. *)
Definition chain_value (h : heap) (l : loc) (k : string) : value :=
  match find_property (chain_bound h) h l k with
  | Some (DataDescriptor v _ _ _) => v
  | _ => VUndefined
  end.

Definition put_own (l : loc) (k : string) (v : value) (h : heap) : heap :=
  define_own l k (data v) h.

(** What the untrusted source text does, for the few texts this browser
    understands.  The object of an object literal is given no prototype:
    the texts below throw objects whose [message] and [constructor] are own
    properties, or are on no object of the chain.  Any other text is taken
    to be one that, like [void 0], evaluates to [undefined] and changes
    nothing. *)
Definition run_source (window : loc) (sourceText : string) (h : heap)
    : completion value * heap :=
  if decide (sourceText = "window") then (Normal (VObject window), h)
  else if decide (sourceText = "throw null") then (Throw VNull, h)
  else if decide (sourceText = "throw undefined") then (Throw VUndefined, h)
  else if decide (sourceText = "throw 'late'") then (Throw (VString "late"), h)
  else if decide (sourceText = "throw new TypeError('bad')") then
    let e := fresh (dom h) in
    (Throw (VObject e),
     <[e := plain SecureRealm (own_value h (window + 8) "prototype")
              [("message", data (VString "bad"))]]> h)
  else if decide (sourceText = "throw { message: 'boom', constructor: class Boom {} }") then
    let c := fresh (dom h) in
    let e := (c + 1)%positive in
    (Throw (VObject e),
     <[e := plain SecureRealm VNull
              [("message", data (VString "boom")); ("constructor", data (VObject c))]]>
       (<[c := native SecureRealm "Boom" Constructor]> h))
  else if decide (sourceText = "throw { get message() { throw this } }") then
    let g := fresh (dom h) in
    let e := (g + 1)%positive in
    (Throw (VObject e),
     <[e := plain SecureRealm VNull
              [("message", AccessorDescriptor (VObject g) VUndefined true true)]]>
       (<[g := native SecureRealm "get message" CallableOnly]> h))
  else if decide (sourceText = "throw { message: 'wrapped', constructor: Error }") then
    let e := fresh (dom h) in
    (Throw (VObject e),
     <[e := plain SecureRealm VNull
              [("message", data (VString "wrapped"));
               ("constructor", data (chain_value h window "Error"))]]> h)
  else if decide (sourceText = "throw { message: 'illegal', constructor: window.constructor }")
  then
    let e := fresh (dom h) in
    (Throw (VObject e),
     <[e := plain SecureRealm VNull
              [("message", data (VString "illegal"));
               ("constructor", data (chain_value h window "constructor"))]]> h)
  else (Normal VUndefined, h).

Definition call (f : loc) (this : value) (args : list value) (h : heap)
    : completion value * heap :=
  let name := function_name h f in
  if decide (name = "createElement") then
    let el := fresh (dom h) in
    let style := (el + 1)%positive in
    (Normal (VObject el),
     <[style := plain RawRealm VNull []]>
       (<[el := plain RawRealm (VObject 10) [("style", data (VObject style))]]> h))
  else if decide (name = "setAttribute") then
    match this, args with
    | VObject el, [VString k; v] => (Normal VUndefined, put_own el ("@" +:+ k) v h)
    | _, _ => (Normal VUndefined, h)
    end
  else if decide (name = "get body") then (Normal (VObject 7), h)
  else if decide (name = "get message") then (Throw this, h)
  else if decide (name = "appendChild") then
    match args with
    | [VObject el] =>
        let b := fresh (dom h) in
        (Normal (VObject el),
         put_own el "contentWindow" (VObject b) (list_to_map (realm_objects b) ∪ h))
    | _ => (Normal VUndefined, h)
    end
  else if decide (name = "remove") then
    match this with
    | VObject el => (Normal VUndefined, put_own el "contentWindow" VNull h)
    | _ => (Normal VUndefined, h)
    end
  else if decide (name = "eval") then
    match own_value h f "[[Realm]]", args with
    | VObject window, [VString sourceText] => run_source window sourceText h
    | _, _ => (Normal VUndefined, h)
    end
  else (Normal VUndefined, h).

Definition new_error (proto : loc) (args : list value) (h : heap) : completion value * heap :=
  let e := fresh (dom h) in
  (Normal (VObject e), <[e := error_object proto (default VUndefined (head args))]> h).

Definition construct_ (f : loc) (args : list value) (h : heap) : completion value * heap :=
  let name := function_name h f in
  if decide (name = "TypeError") then new_error TypeErrorPrototype args h
  else if decide (name = "Error") then new_error ErrorPrototype args h
  else
    let e := fresh (dom h) in
    (Throw (VObject e),
     <[e := error_object TypeErrorPrototype (VString "Illegal constructor")]> h).

#[global] Instance host : Host := {
  host_call := call;
  host_construct := construct_
}.

#[global] Instance shared : Shared := {
  ReflectiveDOMObjectNames := ["Node"; "Missing"; "TypeError"]
}.

(** The world when the module is loaded, the module's constants, and the
    world and the evaluator after one construction. *)
Definition world0 : world SpecMembrane.state := mkWorld raw_heap [] [].

Definition constants : ModuleConstants :=
  mkModule (VObject 1) (VObject 5) (VObject 2) (VObject 3) (VObject 4).

Definition evaluator : Evaluator := mkEvaluator (VObject 34) 0.

Abbreviation world1 := (snd (createSecureEnvironment constants None world0)).

(** The realm of the object a value refers to. *)
Definition realm_of (h : heap) (v : value) : option realm_tag :=
  match v with
  | VObject l => o_realm <$> h !! l
  | _ => None
  end.

(** The trusted document's realm after its code rewired the prototype of
    [Window.prototype] (2) past [WindowProperties] (3). *)
Definition world0_rewired : world SpecMembrane.state :=
  mkWorld (<[2 := plain RawRealm (VObject 4) [("constructor", data (VObject 25))]]> raw_heap)
          [] [].

(** *** Runs in the small browser *)

(** The first two arguments of every [remap] call of a log, in order. *)
Definition remap_arguments (evs : list event) : list (value * value) :=
  omap (fun e => match e with EvRemap _ a b _ => Some (a, b) | _ => None end) evs.

(** The arguments of every [remap] call of a log, in order. *)
Definition remap_calls (evs : list event) : list (value * value * PropertyDescriptorMap) :=
  omap (fun e => match e with EvRemap _ a b d => Some (a, b, d) | _ => None end) evs.

(** The descriptor set of the last [remap] call of a log. *)
Definition last_remap_descriptors (evs : list event) : option PropertyDescriptorMap :=
  last (omap (fun e => match e with EvRemap _ _ _ d => Some d | _ => None end) evs).

Definition boom : string := "throw { message: 'boom', constructor: class Boom {} }".
Definition leak : string := "throw { get message() { throw this } }".

(** The world after the source text [src] was run by the secure [eval]. *)
Abbreviation after_eval src :=
  (snd (CallFunction (secureIndirectEval evaluator) [VString src] world1)).

Abbreviation after_message src e := (snd (GetV e "message" (after_eval src))).

Abbreviation after_constructor src e :=
  (snd (GetV e "constructor" (after_message src e))).

Abbreviation after_getRawRef src e constructor :=
  (snd (env_getRawRef (env evaluator) constructor (after_constructor src e))).

Abbreviation after_evaluate src := (snd (evaluate evaluator src world1)).

Abbreviation world1_rewired :=
  (snd (createSecureEnvironment constants None world0_rewired)).

Definition bad : string := "throw new TypeError('bad')".
Definition wrapped : string := "throw { message: 'wrapped', constructor: Error }".
Definition illegal : string :=
  "throw { message: 'illegal', constructor: window.constructor }".

Abbreviation after_construct src e constructor c message :=
  (snd (construct c [message] (after_getRawRef src e constructor))).

(** A page whose [WindowProperties] object (3) has no prototype: the chain
    above the window is one link short.  The module's constants as loaded
    there. *)
Definition world0_short_spine : world SpecMembrane.state :=
  mkWorld (<[3 := plain RawRealm VNull []]> raw_heap) [] [].

Definition constants_short_spine : ModuleConstants :=
  mkModule (VObject 1) (VObject 5) (VObject 2) (VObject 3) VNull.

Abbreviation after_short_spine :=
  (snd (createSecureEnvironment constants_short_spine None world0_short_spine)).

(** A realm whose global object has no [document]. *)
Definition world0_no_document : world SpecMembrane.state :=
  mkWorld (<[1 := plain RawRealm VNull [("window", data (VObject 1))]]> raw_heap) [] [].

(** Two globals that both define [opener]: [null] on the raw one (1), an
    object on the secure one (2). *)
Definition world_null_opener : world SpecMembrane.state :=
  mkWorld
    (list_to_map
       [(1, plain RawRealm VNull [("opener", data VNull)]);
        (2, plain SecureRealm VNull [("opener", data (VObject 2))])])
    [] [].

End Browser.

(** ** Reasoning about runs *)

Section Runs.
Context {St : Type} {host : Host} {intr : Intrinsics}
        {membrane : MembraneEngine St} {shared : Shared}.
Local Open Scope js_scope.

Lemma bind_Normal {A B} (m : JS St A) (f : A -> JS St B) w b w' :
  bind m f w = (Normal b, w') ->
  exists a w1, m w = (Normal a, w1) /\ f a w1 = (Normal b, w').
Proof.
  unfold bind. destruct (m w) as [[a|v] w1]; [eauto | discriminate].
Qed.

Lemma bind_any {A B} (m : JS St A) (f : A -> JS St B) w r w' :
  bind m f w = (r, w') ->
  (exists v, m w = (Throw v, w') /\ r = Throw v) \/
  (exists a w1, m w = (Normal a, w1) /\ f a w1 = (r, w')).
Proof.
  unfold bind. destruct (m w) as [[a|v] w1]; intros H.
  - right. eauto.
  - left. exists v. by inversion H.
Qed.

Lemma silent_ret {A} (a : A) : silent (@ret St A a).
Proof. intros w r w' H. by inversion H. Qed.

Lemma silent_throw {A} v : silent (@throw St A v).
Proof. intros w r w' H. by inversion H. Qed.

Lemma silent_bind {A B} (m : JS St A) (f : A -> JS St B) :
  silent m -> (forall a, silent (f a)) -> silent (bind m f).
Proof.
  intros Hm Hf w r w' H.
  apply bind_any in H as [(v & H & _) | (a & w1 & H1 & H2)].
  - exact (Hm _ _ _ H).
  - destruct (Hm _ _ _ H1) as [<- <-]. exact (Hf a _ _ _ H2).
Qed.

Lemma silent_alloc o : silent (@alloc St o).
Proof. intros w r w' H. by inversion H. Qed.

Lemma silent_lift_heap {A} (f : heap -> completion A * heap) : silent (@lift_heap St A f).
Proof.
  intros w r w' H. unfold lift_heap in H.
  destruct (f (w_heap w)). by inversion H.
Qed.

Lemma silent_throw_error {A} p msg : silent (@throw_error St A p msg).
Proof.
  apply silent_bind; [apply silent_alloc | intros; apply silent_throw].
Qed.

Lemma silent_throwTypeError {A} msg : silent (@throwTypeError St _ A msg).
Proof. apply silent_throw_error. Qed.

Lemma silent_Call f this args : silent (@Call St _ _ f this args).
Proof.
  intros w r w'. unfold Call.
  destruct f; try apply silent_throwTypeError.
  destruct (w_heap w !! l) as [o|]; try apply silent_throwTypeError.
  destruct (IsCallable (o_fn o));
    [apply silent_lift_heap | apply silent_throwTypeError].
Qed.

Lemma silent_OrdinaryGet l k recv : silent (@OrdinaryGet St _ _ l k recv).
Proof.
  intros w r w'. unfold OrdinaryGet.
  destruct (find_property _ _ l k) as [[v ? ? ?|g s ? ?]|].
  - intros H. by inversion H.
  - destruct g; try apply silent_Call. intros H. by inversion H.
  - intros H. by inversion H.
Qed.

Lemma silent_GetV v k : silent (@GetV St _ _ v k).
Proof.
  destruct v; simpl; try apply silent_throwTypeError; try apply silent_OrdinaryGet.
  destruct (string_own_props s !! k) as [[]|];
    try apply silent_OrdinaryGet; apply silent_ret.
Qed.

Lemma silent_ResolveGlobal name : silent (@ResolveGlobal St _ _ name).
Proof.
  intros w r w'. unfold ResolveGlobal.
  destruct (find_property _ _ _ _); [apply silent_GetV | apply silent_throw_error].
Qed.

Lemma silent_set_own l k d : silent (@set_own St l k d).
Proof. intros w r w' H. by inversion H. Qed.

Lemma silent_call_unit f this args :
  silent (bind (@Call St _ _ f this args) (fun _ => ret tt)).
Proof. apply silent_bind; [apply silent_Call | intros; apply silent_ret]. Qed.

Lemma silent_PutV o k v : silent (@PutV St _ _ o k v).
Proof.
  intros w r w'. unfold PutV.
  repeat match goal with
  | |- throwTypeError _ _ = _ -> _ => apply silent_throwTypeError
  | |- set_own _ _ _ _ = _ -> _ => apply silent_set_own
  | |- bind (Call _ _ _) _ _ = _ -> _ => apply silent_call_unit
  | |- context [match ?x with _ => _ end] => destruct x
  end.
Qed.

Lemma silent_ReflectGetPrototypeOf v : silent (@ReflectGetPrototypeOf St _ v).
Proof.
  intros w r w'. unfold ReflectGetPrototypeOf.
  destruct v; try apply silent_throwTypeError.
  destruct (w_heap w !! l); [|apply silent_throwTypeError].
  intros H. by inversion H.
Qed.

Lemma ReflectGetPrototypeOf_Normal v p (w w' : world St) :
  ReflectGetPrototypeOf v w = (Normal p, w') -> w' = w.
Proof.
  unfold ReflectGetPrototypeOf.
  destruct v; try (intros H; apply bind_Normal in H as (? & ? & _ & H); discriminate).
  destruct (w_heap w !! l).
  - intros H. by inversion H.
  - intros H. apply bind_Normal in H as (? & ? & _ & H). discriminate.
Qed.

Lemma silent_getOwnPropertyDescriptors v : silent (@getOwnPropertyDescriptors St _ v).
Proof.
  intros w r w'. unfold getOwnPropertyDescriptors.
  destruct v; try apply silent_throwTypeError; try (intros H; by inversion H).
  destruct (w_heap w !! l); intros H; by inversion H.
Qed.

Lemma log_spec e (w : world St) r w' :
  log e w = (r, w') ->
  r = Normal tt /\ w_log w' = w_log w ++ [e] /\ w_envs w' = w_envs w /\ w_heap w' = w_heap w.
Proof. intros H. by inversion H. Qed.

(** A logged call followed by a silent computation. *)
Lemma logged_then_silent {A} e (m : JS St A) w r w' :
  silent m ->
  bind (log e) (fun _ => m) w = (r, w') ->
  w_log w' = w_log w ++ [e] /\ w_envs w' = w_envs w.
Proof.
  intros Hm H. apply bind_any in H as [(v & H & _) | (a & w1 & H1 & H2)].
  - by apply log_spec in H as [? _].
  - apply log_spec in H1 as (_ & Hl & He & _).
    destruct (Hm _ _ _ H2) as [-> ->]. by rewrite Hl, He.
Qed.

Lemma CallMethod_Normal this name args (w : world St) v w' :
  CallMethod this name args w = (Normal v, w') ->
  w_log w' = w_log w ++ [EvMethod this name args] /\ w_envs w' = w_envs w.
Proof.
  intros H. apply bind_Normal in H as (f & w1 & H1 & H2).
  destruct (silent_GetV _ _ _ _ _ H1) as [<- <-].
  eapply logged_then_silent; [|exact H2]. apply silent_Call.
Qed.

Lemma CallFunction_any f args (w : world St) r w' :
  CallFunction f args w = (r, w') ->
  w_log w' = w_log w ++ [EvCall f args] /\ w_envs w' = w_envs w.
Proof. apply logged_then_silent, silent_Call. Qed.

Lemma ReflectSetPrototypeOf_any target proto (w : world St) r w' :
  ReflectSetPrototypeOf target proto w = (r, w') ->
  w_log w' = w_log w ++ [EvSetPrototypeOf target proto] /\ w_envs w' = w_envs w.
Proof.
  apply logged_then_silent. intros w0 r0 w0'. cbv beta zeta.
  destruct target; try apply silent_throwTypeError.
  destruct (w_heap w0 !! l) as [o|]; [|apply silent_throwTypeError].
  destruct proto; try apply silent_throwTypeError.
  - intros H. by inversion H.
  - destruct (on_chain _ _ _ _); intros H; by inversion H.
Qed.

Lemma construct_any target args (w : world St) r w' :
  construct target args w = (r, w') ->
  w_log w' = w_log w ++ [EvConstruct target args] /\ w_envs w' = w_envs w.
Proof.
  apply logged_then_silent. intros w0 r0 w0'.
  destruct target; try apply silent_throwTypeError.
  destruct (w_heap w0 !! l) as [o|]; [|apply silent_throwTypeError].
  destruct (IsConstructor (o_fn o)); [apply silent_lift_heap | apply silent_throwTypeError].
Qed.

Lemma ErrorCreate_spec message (w : world St) :
  ErrorCreate message w =
    (Normal (VObject (fresh (dom (w_heap w)))),
     mkWorld (<[fresh (dom (w_heap w)) := error_object ErrorPrototype message]> (w_heap w))
             (w_envs w) (w_log w ++ [EvErrorCreate message])).
Proof. reflexivity. Qed.

(** A membrane method neither logs nor changes the number of instances. *)
Lemma with_env_frame {A} env (f : St -> heap -> completion A * St * heap) (w : world St) r w' :
  with_env env f w = (r, w') ->
  w_log w' = w_log w /\ length (w_envs w') = length (w_envs w).
Proof.
  unfold with_env. destruct (w_envs w !! env) as [st|].
  - destruct (f st (w_heap w)) as [[r0 st'] h']. intros H. inversion H; subst; simpl.
    by rewrite length_insert.
  - intros H. by destruct (silent_throwTypeError _ _ _ _ H) as [-> ->].
Qed.

Lemma new_SecureEnvironment_Normal rawG secG dm (w : world St) env w' :
  new_SecureEnvironment rawG secG dm w = (Normal env, w') ->
  env = length (w_envs w) /\
  w_log w' = w_log w ++ [EvNewEnv env rawG secG dm] /\
  length (w_envs w') = S (length (w_envs w)).
Proof.
  unfold new_SecureEnvironment. intros H.
  apply bind_Normal in H as ([] & w1 & H1 & H2).
  apply log_spec in H1 as (_ & Hl & He & Hh).
  destruct (m_new rawG secG dm (w_heap w1)) as [[st|v] h]; [|discriminate].
  inversion H2; subst; simpl. rewrite length_app, He, Hl. simpl.
  repeat split; lia.
Qed.

Lemma env_remap_any env a b d (w : world St) r w' :
  env_remap env a b d w = (r, w') ->
  w_log w' = w_log w ++ [EvRemap env a b d] /\ length (w_envs w') = length (w_envs w).
Proof.
  intros H. apply bind_any in H as [(v & H & _) | ([] & w1 & H1 & H2)].
  - by apply log_spec in H as [? _].
  - apply log_spec in H1 as (_ & Hl & He & _).
    apply with_env_frame in H2 as [-> ->]. by rewrite Hl, He.
Qed.

Lemma env_getSecureValue_Normal env raw (w : world St) v w' :
  env_getSecureValue env raw w = (Normal v, w') ->
  w_log w' = w_log w ++ [EvGetSecureValue env raw v] /\
  length (w_envs w') = length (w_envs w).
Proof.
  intros H. apply bind_Normal in H as (v0 & w1 & H1 & H2).
  apply with_env_frame in H1 as [<- <-].
  apply bind_Normal in H2 as ([] & w2 & H2 & H3).
  apply log_spec in H2 as (_ & Hl & He & _). inversion H3; subst.
  by rewrite Hl, He.
Qed.

Lemma env_getRawRef_any env v (w : world St) r w' :
  env_getRawRef env v w = (r, w') ->
  w_log w' = w_log w ++ [EvGetRawRef env v] /\ length (w_envs w') = length (w_envs w).
Proof.
  intros H. apply bind_any in H as [(v0 & H & _) | ([] & w1 & H1 & H2)].
  - by apply log_spec in H as [? _].
  - apply log_spec in H1 as (_ & Hl & He & _).
    apply with_env_frame in H2 as [-> ->]. by rewrite Hl, He.
Qed.

Lemma reflective_call_is_remap m env sw names e :
  reflective_call St m env sw names e -> is_remap env e.
Proof. intros (key & a & b & c & d & _ & _ & _ & _ & _ & _ & _ & _ & _ & _ & ->). by exists a, b, d. Qed.

Lemma reflective_call_weaken m env sw key names e :
  reflective_call St m env sw names e -> reflective_call St m env sw (key :: names) e.
Proof.
  intros (k & a & b & c & d & w1 & w2 & w3 & w4 & w5 & Hk & H).
  exists k, a, b, c, d, w1, w2, w3, w4, w5. split; [by apply elem_of_cons; right | exact H].
Qed.

Lemma remap_reflective_Normal m env sw names d (w : world St) d' w' :
  remap_reflective m env sw names d w = (Normal d', w') ->
  exists refl,
    w_log w' = w_log w ++ refl /\ Forall (reflective_call St m env sw names) refl /\
    length (w_envs w') = length (w_envs w) /\ d' ⊆ d.
Proof.
  revert d w. induction names as [|key rest IH]; intros d w H; simpl in H.
  - inversion H; subst. exists []. by rewrite app_nil_r.
  - apply bind_Normal in H as (r & w1 & E1 & H).
    apply silent_GetV in E1 as [El1 Ee1].
    apply bind_Normal in H as (both & w2 & E2 & H).
    assert (w_log w2 = w_log w1 /\ w_envs w2 = w_envs w1) as [El2 Ee2].
    { destruct (is_undefined r); [by inversion E2|].
      apply bind_Normal in E2 as (s & w2' & E2 & E2').
      apply silent_GetV in E2 as [<- <-]. by inversion E2'. }
    destruct both.
    + apply bind_Normal in H as (a & w3 & E3 & H).
      destruct (silent_GetV _ _ _ _ _ E3) as [El3 Ee3].
      apply bind_Normal in H as (b & w4 & E4 & H).
      destruct (silent_GetV _ _ _ _ _ E4) as [El4 Ee4].
      apply bind_Normal in H as (c & w5 & E5 & H).
      destruct (silent_GetV _ _ _ _ _ E5) as [El5 Ee5].
      apply bind_Normal in H as (dc & w6 & E6 & H).
      destruct (silent_getOwnPropertyDescriptors _ _ _ _ E6) as [El6 Ee6].
      apply bind_Normal in H as ([] & w7 & E7 & H).
      apply env_remap_any in E7 as [El7 Ee7].
      apply IH in H as (refl & Hl & Hf & He & Hd).
      exists (EvRemap env a b dc :: refl). repeat split.
      * rewrite Hl, El7, El6, El5, El4, El3, El2, El1. by rewrite <- app_assoc.
      * constructor.
        -- exists key, a, b, c, dc, w2, w3, w4, w5, w6.
           split; [by apply elem_of_cons; left | done].
        -- eapply Forall_impl; [exact Hf | intros e; apply reflective_call_weaken].
      * rewrite He, Ee7. congruence.
      * etrans; [exact Hd | apply delete_subseteq].
    + apply IH in H as (refl & Hl & Hf & He & Hd).
      exists refl. repeat split; [| | | done].
      * rewrite Hl. congruence.
      * eapply Forall_impl; [exact Hf | intros e; apply reflective_call_weaken].
      * rewrite He. congruence.
Qed.

Lemma remove_denylisted_lookup d k :
  k ∈ denylist -> remove_denylisted d !! k = None.
Proof.
  unfold denylist, remove_denylisted. rewrite !elem_of_cons, elem_of_nil.
  intros [->|[->|[->|[->|[]]]]]; by rewrite !lookup_delete.
Qed.

(** The log of a construction that completes: the provisioning calls, the
    creation of the membrane, the document pair, the reflective names, the
    spine and the global object, in this order and with these arguments. *)
Lemma createSecureEnvironment_trace m dm (w : world St) ev w' :
  createSecureEnvironment m dm w = (Normal ev, w') ->
  exists document iframe body secureWindow secureDocument
         secureWindowProto secureWindowPropertiesProto secureEventTargetProto
         rawDocumentProto wrappedProto dGlobal0 dWindowProto dWindowProperties
         dEventTarget refl dGlobal,
    ev = mkEvaluator (secureIndirectEval ev) (length (w_envs w)) /\
    w_log w' = w_log w
      ++ provisioning_calls document iframe body (secureIndirectEval ev)
      ++ [EvNewEnv (env ev) (rawWindow m) secureWindow dm]
      ++ document_calls (env ev) secureDocument (rawDocument m) rawDocumentProto wrappedProto
      ++ refl
      ++ spine_calls (env ev) m secureEventTargetProto secureWindowPropertiesProto
           secureWindowProto secureWindow dEventTarget dWindowProperties dWindowProto dGlobal /\
    Forall (reflective_call St m (env ev) secureWindow ReflectiveDOMObjectNames)
           refl /\
    dGlobal ⊆ remove_denylisted dGlobal0 /\
    (exists w1 w2 : world St,
       getOwnPropertyDescriptors (rawWindow m) w1 = (Normal dGlobal0, w2)) /\
    (exists w1 w2 : world St,
       ReflectGetPrototypeOf (rawDocument m) w1 = (Normal rawDocumentProto, w2)) /\
    spine_read St secureWindow secureWindowProto secureWindowPropertiesProto
               secureEventTargetProto.
Proof.
  unfold createSecureEnvironment. intros H.
  repeat (let E := fresh "E" in
          apply bind_Normal in H as (? & ? & E & H); cbv beta zeta in H).
  inversion H; subst; clear H. simpl.
  match goal with
  | E1 : ReflectGetPrototypeOf ?g ?w1 = (Normal ?p1, ?w2),
    E2 : ReflectGetPrototypeOf ?p1 ?w2 = (Normal ?p2, ?w3),
    E3 : ReflectGetPrototypeOf ?p2 ?w3 = (Normal ?p3, ?w4) |- _ =>
      assert (spine_read St g p1 p2 p3) as Hspine
        by (exists w1;
            pose proof (ReflectGetPrototypeOf_Normal _ _ _ _ E1);
            pose proof (ReflectGetPrototypeOf_Normal _ _ _ _ E2);
            pose proof (ReflectGetPrototypeOf_Normal _ _ _ _ E3);
            subst; auto)
  end.
  match goal with
  | E : getOwnPropertyDescriptors (rawWindow m) ?w1 = (Normal ?d, ?w2) |- _ =>
      assert (exists w1 w2 : world St,
                getOwnPropertyDescriptors (rawWindow m) w1 = (Normal d, w2))
        as Hcaptured by (exists w1, w2; exact E)
  end.
  match goal with
  | E : ReflectGetPrototypeOf (rawDocument m) ?w1 = (Normal ?p, ?w2) |- _ =>
      assert (exists w1 w2 : world St,
                ReflectGetPrototypeOf (rawDocument m) w1 = (Normal p, w2))
        as Hproto by (exists w1, w2; exact E)
  end.
  repeat match goal with
  | E : ResolveGlobal _ _ = _ |- _ => apply silent_ResolveGlobal in E as [? ?]
  | E : GetV _ _ _ = _ |- _ => apply silent_GetV in E as [? ?]
  | E : PutV _ _ _ _ = _ |- _ => apply silent_PutV in E as [? ?]
  | E : ReflectGetPrototypeOf _ _ = _ |- _ => apply silent_ReflectGetPrototypeOf in E as [? ?]
  | E : getOwnPropertyDescriptors _ _ = _ |- _ =>
      apply silent_getOwnPropertyDescriptors in E as [? ?]
  | E : CallMethod _ _ _ _ = _ |- _ => apply CallMethod_Normal in E as [? ?]
  | E : CallFunction _ _ _ = _ |- _ => apply CallFunction_any in E as [? ?]
  | E : new_SecureEnvironment _ _ _ _ = _ |- _ =>
      apply new_SecureEnvironment_Normal in E as (? & ? & ?)
  | E : env_remap _ _ _ _ _ = _ |- _ => apply env_remap_any in E as [? _]
  | E : env_getSecureValue _ _ _ = _ |- _ => apply env_getSecureValue_Normal in E as [? _]
  | E : ReflectSetPrototypeOf _ _ _ = _ |- _ => apply ReflectSetPrototypeOf_any in E as [? _]
  | E : remap_reflective _ _ _ _ _ _ = _ |- _ =>
      apply remap_reflective_Normal in E as (refl & ? & ? & _ & ?)
  end.
  do 14 eexists. exists refl. eexists.
  split; [|split; [|split; [|split; [|split; [|split]]]]].
  - f_equal. subst. congruence.
  - repeat match goal with Hl : w_log _ = _ |- _ => rewrite Hl; clear Hl end.
    unfold provisioning_calls, document_calls, spine_calls.
    rewrite <- !app_assoc. simpl. reflexivity.
  - done.
  - eassumption.
  - exact Hcaptured.
  - exact Hproto.
  - exact Hspine.
Qed.

(** *** The phases of a construction, whatever its outcome *)
















(** *** The store of membranes during a construction *)

Lemma envs_step_bind {A B} P Q R (m : JS St A) (f : A -> JS St B) :
  envs_step P Q m -> (forall a, envs_step (Q a) R (f a)) -> envs_step P R (bind m f).
Proof.
  intros Hm Hf w b w' HP H. apply bind_Normal in H as (a & w1 & H1 & H2).
  exact (Hf a _ _ _ (Hm _ _ _ HP H1) H2).
Qed.

Lemma envs_step_silent {A} P (m : JS St A) : silent m -> envs_step P (fun _ => P) m.
Proof. intros Hm w a w' HP H. apply Hm in H as [_ ->]. exact HP. Qed.

Lemma envs_step_CallMethod P this name args :
  envs_step (St := St) P (fun _ => P) (CallMethod this name args).
Proof. intros w a w' HP H. apply CallMethod_Normal in H as [_ ->]. exact HP. Qed.

Lemma envs_step_CallFunction P f args :
  envs_step (St := St) P (fun _ => P) (CallFunction f args).
Proof. intros w a w' HP H. apply CallFunction_any in H as [_ ->]. exact HP. Qed.

Lemma envs_step_ReflectSetPrototypeOf P target proto :
  envs_step (St := St) P (fun _ => P) (ReflectSetPrototypeOf target proto).
Proof. intros w a w' HP H. apply ReflectSetPrototypeOf_any in H as [_ ->]. exact HP. Qed.

Lemma envs_step_new_SecureEnvironment before rawG secG dm :
  envs_step (St := St) (eq before) (one_more before) (new_SecureEnvironment rawG secG dm).
Proof.
  intros w env w' -> H. unfold new_SecureEnvironment in H.
  apply bind_Normal in H as ([] & w1 & H1 & H2).
  apply log_spec in H1 as (_ & _ & He & _).
  destruct (m_new rawG secG dm (w_heap w1)) as [[st|v] h]; [|discriminate].
  inversion H2; subst; simpl. unfold one_more. rewrite He. eauto.
Qed.

Lemma envs_step_with_env {A} before env (f : St -> heap -> completion A * St * heap) :
  envs_step (one_more before env) (fun _ => one_more before env) (with_env env f).
Proof.
  intros w a w' (-> & st & Hst) H. unfold with_env in H.
  destruct (w_envs w !! length before) as [st0|].
  - destruct (f st0 (w_heap w)) as [[r st'] h']. inversion H; subst; simpl.
    split; [done|]. exists st'. rewrite Hst.
    rewrite insert_app_r_alt; [|done]. by rewrite Nat.sub_diag.
  - apply bind_Normal in H as (? & ? & _ & H). discriminate.
Qed.

Lemma envs_step_log P e : envs_step (St := St) P (fun _ => P) (log e).
Proof. intros w a w' HP H. apply log_spec in H as (_ & _ & -> & _). exact HP. Qed.

Lemma envs_step_env_remap before env a b d :
  envs_step (St := St) (one_more before env) (fun _ => one_more before env)
    (env_remap env a b d).
Proof.
  eapply envs_step_bind; [apply envs_step_log | intros; apply envs_step_with_env].
Qed.

Lemma envs_step_env_getSecureValue before env raw :
  envs_step (St := St) (one_more before env) (fun _ => one_more before env)
    (env_getSecureValue env raw).
Proof.
  eapply envs_step_bind; [apply envs_step_with_env|]. intros v.
  eapply envs_step_bind; [apply envs_step_log|].
  intros. apply envs_step_silent, silent_ret.
Qed.

Lemma envs_step_remap_reflective before m env sw names d :
  envs_step (St := St) (one_more before env) (fun _ => one_more before env)
    (remap_reflective m env sw names d).
Proof.
  revert d. induction names as [|key rest IH]; intros d; simpl.
  - apply envs_step_silent, silent_ret.
  - eapply envs_step_bind; [apply envs_step_silent, silent_GetV|]. intros r.
    eapply envs_step_bind.
    { apply envs_step_silent. destruct (is_undefined r); [apply silent_ret|].
      apply silent_bind; [apply silent_GetV | intros; apply silent_ret]. }
    intros [|]; [|apply IH].
    repeat (eapply envs_step_bind; [apply envs_step_silent;
              first [apply silent_GetV | apply silent_getOwnPropertyDescriptors]|]; intros ?).
    eapply envs_step_bind; [apply envs_step_env_remap | intros; apply IH].
Qed.

(** A construction adds one membrane to the store, the one its evaluator
    keeps, and leaves the others as they were. *)
Lemma envs_step_createSecureEnvironment before m dm :
  envs_step (St := St) (eq before) (fun ev => one_more before (env ev))
    (createSecureEnvironment m dm).
Proof.
  unfold createSecureEnvironment.
  repeat (eapply envs_step_bind;
    [ first
      [ apply envs_step_CallMethod
      | apply envs_step_CallFunction
      | apply envs_step_silent;
        first [ apply silent_ResolveGlobal | apply silent_GetV | apply silent_PutV
              | apply silent_ReflectGetPrototypeOf | apply silent_getOwnPropertyDescriptors ] ]
    | intros ?; cbv zeta ]).
  eapply envs_step_bind; [apply envs_step_new_SecureEnvironment|]. intros env0.
  repeat (eapply envs_step_bind;
    [ first
      [ apply envs_step_env_remap
      | apply envs_step_env_getSecureValue
      | apply envs_step_ReflectSetPrototypeOf
      | apply envs_step_remap_reflective ]
    | intros ? ]).
  intros w0 ev0 w0' HP H. inversion H; subst. exact HP.
Qed.

End Runs.

(** ** Properties of the construction *)

Section Construction.
Context {St : Type} {host : Host} {intr : Intrinsics}
        {membrane : MembraneEngine St} {shared : Shared}.
Local Open Scope js_scope.

(** C4. The descriptor set passed to the registration of the global object,
    the last call of a construction, holds no denylisted name ([location],
    [EventTarget], [document], [window]): it is a subset of the own
    descriptors captured from the raw global with the four names deleted
    (lines 53-56, which the program runs before it creates the membrane). *)
Theorem C4_global_registration_has_no_denylisted_name
    m dm (w : world St) ev w' :
  createSecureEnvironment m dm w = (Normal ev, w') ->
  exists earlier secureWindow captured dGlobal,
    w_log w' = w_log w ++ earlier
               ++ [EvRemap (env ev) secureWindow (rawWindow m) dGlobal] /\
    (exists w1 w2 : world St,
       getOwnPropertyDescriptors (rawWindow m) w1 = (Normal captured, w2)) /\
    dGlobal ⊆ remove_denylisted captured /\
    forall name, name ∈ denylist -> dGlobal !! name = None.
Proof.
  intros H. apply createSecureEnvironment_trace in H
    as (document & iframe & body & sW & sDoc & sWP & sWPP & sETP & rDP & wrapped
        & d0 & dWP & dWPP & dE & refl & dG & _ & Hlog & _ & Hsub & Hcap & _).
  exists (provisioning_calls document iframe body (secureIndirectEval ev)
          ++ [EvNewEnv (env ev) (rawWindow m) sW dm]
          ++ document_calls (env ev) sDoc (rawDocument m) rDP wrapped ++ refl
          ++ [EvRemap (env ev) sETP (rawEventTargetProto m) dE;
              EvRemap (env ev) sWPP (rawWindowPropertiesProto m) dWPP;
              EvRemap (env ev) sWP (rawWindowProto m) dWP]).
  exists sW, d0, dG. repeat split.
  - rewrite Hlog. unfold spine_calls. rewrite <- !app_assoc. simpl. reflexivity.
  - exact Hcap.
  - exact Hsub.
  - intros name Hname. eapply lookup_weaken_None; [|exact Hsub].
    by apply remove_denylisted_lookup.
Qed.





Lemma omap_remap_raw_node_length env (refl : list event) :
  Forall (is_remap env) refl -> length (omap remap_raw_node refl) = length refl.
Proof.
  induction 1 as [|e refl (a & b & d & ->) _ IH]; [done|].
  cbn. f_equal. exact IH.
Qed.

(** C10. The raw nodes are read once, when the module is loaded: the raw
    global and the raw document from the global object, and the three spine
    nodes by three steps along the prototype chain as it is then.  Every
    later construction, in whatever state the heap is by then, creates its
    membrane over that raw global and registers the document pair, the
    spine and the global object against exactly these nodes. *)
Theorem C10_raw_nodes_fixed_at_module_load
    (w0 : world St) m w0' dm (w : world St) ev w' :
  module_load w0 = (Normal m, w0') ->
  createSecureEnvironment m dm w = (Normal ev, w') ->
  (exists w1 w2 : world St,
     GetV (VObject globalThis) "window" w0 = (Normal (rawWindow m), w1) /\
     GetV (VObject globalThis) "document" w1 = (Normal (rawDocument m), w2) /\
     ReflectGetPrototypeOf (rawWindow m) w2 = (Normal (rawWindowProto m), w2) /\
     ReflectGetPrototypeOf (rawWindowProto m) w2 = (Normal (rawWindowPropertiesProto m), w2) /\
     ReflectGetPrototypeOf (rawWindowPropertiesProto m) w2
       = (Normal (rawEventTargetProto m), w2)) /\
  fixed_raw_nodes (new_events w w') =
    [rawDocument m; rawEventTargetProto m; rawWindowPropertiesProto m;
     rawWindowProto m; rawWindow m] /\
  exists secureWindow, EvNewEnv (env ev) (rawWindow m) secureWindow dm ∈ new_events w w'.
Proof.
  intros Hload H. split; [|].
  - unfold module_load in Hload.
    apply bind_Normal in Hload as (rw & w1 & E1 & Hload).
    apply bind_Normal in Hload as (rd & w2 & E2 & Hload).
    apply bind_Normal in Hload as (p1 & w3 & E3 & Hload).
    apply bind_Normal in Hload as (p2 & w4 & E4 & Hload).
    apply bind_Normal in Hload as (p3 & w5 & E5 & Hload).
    inversion Hload; subst; clear Hload. simpl.
    pose proof (ReflectGetPrototypeOf_Normal _ _ _ _ E3) as ->.
    pose proof (ReflectGetPrototypeOf_Normal _ _ _ _ E4) as ->.
    pose proof (ReflectGetPrototypeOf_Normal _ _ _ _ E5) as ->.
    exists w1, w2. auto.
  - apply createSecureEnvironment_trace in H
      as (document & iframe & body & sW & sDoc & sWP & sWPP & sETP & rDP & wrapped
          & d0 & dWP & dWPP & dE & refl & dG & _ & Hlog & Hrefl & _).
    pose proof (Forall_impl _ _ _ Hrefl (reflective_call_is_remap _ _ _ _)) as Hremap.
    unfold new_events. rewrite Hlog, drop_app_length. split.
    + unfold fixed_raw_nodes. cbv zeta.
      rewrite !omap_app. simpl. rewrite !length_app. simpl.
      rewrite (omap_remap_raw_node_length _ _ Hremap).
      replace (length refl + 4 - 3)%nat with (S (length refl)) by lia.
      simpl. rewrite drop_app_length'; [done|].
      by rewrite (omap_remap_raw_node_length _ _ Hremap).
    + exists sW. rewrite !elem_of_app. right. left. by apply list_elem_of_singleton.
Qed.

(** X4. A construction creates a membrane of its own, the one its evaluator
    keeps, and leaves every membrane created before it as it was: two
    constructions give evaluators with distinct, independent membranes. *)
Theorem X4_construction_adds_one_membrane m dm (w : world St) ev w' :
  createSecureEnvironment m dm w = (Normal ev, w') ->
  env ev = length (w_envs w) /\
  exists st, w_envs w' = w_envs w ++ [st].
Proof.
  intros H. exact (envs_step_createSecureEnvironment (w_envs w) m dm _ _ _ eq_refl H).
Qed.

End Construction.

(** ** Properties of the returned evaluator *)

Section Evaluation.
Context {St : Type} {host : Host} {intr : Intrinsics}
        {membrane : MembraneEngine St} {shared : Shared}.
Local Open Scope js_scope.

Lemma try_catch_any {A} (m : JS St A) (handler : value -> JS St A) w r w' :
  try_catch m handler w = (r, w') ->
  (exists a, m w = (Normal a, w') /\ r = Normal a) \/
  (exists v w1, m w = (Throw v, w1) /\ handler v w1 = (r, w')).
Proof.
  unfold try_catch. destruct (m w) as [[a|v] w1]; intros H.
  - left. exists a. by inversion H.
  - right. eauto.
Qed.

Lemma bind_Normal_eq {A B} (m : JS St A) (f : A -> JS St B) w a w1 :
  m w = (Normal a, w1) -> bind m f w = f a w1.
Proof. intros H. unfold bind. by rewrite H. Qed.

Lemma bind_Throw_eq {A B} (m : JS St A) (f : A -> JS St B) w v w1 :
  m w = (Throw v, w1) -> bind m f w = (Throw v, w1).
Proof. intros H. unfold bind. by rewrite H. Qed.

Lemma try_catch_Throw_eq {A} (m : JS St A) (handler : value -> JS St A) w v w1 :
  m w = (Throw v, w1) -> try_catch m handler w = handler v w1.
Proof. intros H. unfold try_catch. by rewrite H. Qed.

Lemma throwTypeError_spec {A} msg (w : world St) :
  @throwTypeError St _ A msg w =
    (Throw (VObject (fresh (dom (w_heap w)))),
     mkWorld (<[fresh (dom (w_heap w)) := error_object TypeErrorPrototype (VString msg)]>
                (w_heap w))
             (w_envs w) (w_log w)).
Proof. reflexivity. Qed.

Lemma fresh_loc_unused (h : heap) : h !! fresh (dom h) = None.
Proof. apply not_elem_of_dom, is_fresh. Qed.

(** The outer [try] block, when the source text throws. *)
Lemma evaluate_on_throw ev sourceText (w : world St) e w1 :
  CallFunction (secureIndirectEval ev) [VString sourceText] w = (Throw e, w1) ->
  evaluate ev sourceText w = sanitize ev e w1.
Proof.
  intros H. unfold evaluate, try_catch, bind. by rewrite H.
Qed.

(** A failure of the two reads off the caught value is not caught: what the
    read throws is what the evaluator throws. *)
Lemma unreadable_throw_propagates ev sourceText (w : world St) e w1 x w2 :
  CallFunction (secureIndirectEval ev) [VString sourceText] w = (Throw e, w1) ->
  GetV e "message" w1 = (Throw x, w2) \/
  (exists message w', GetV e "message" w1 = (Normal message, w') /\
                      GetV e "constructor" w' = (Throw x, w2)) ->
  evaluate ev sourceText w = (Throw x, w2).
Proof.
  intros H Hread. rewrite (evaluate_on_throw _ _ _ _ _ H). unfold sanitize.
  destruct Hread as [Hm | (message & w' & Hm & Hc)].
  - by apply bind_Throw_eq.
  - rewrite (bind_Normal_eq _ _ _ _ _ Hm). by apply bind_Throw_eq.
Qed.

(** C9. When the source text throws [null] or [undefined], reading
    [message] off the caught value raises a [TypeError] of the raw realm
    before the fallback's [try] is entered: the evaluator throws that newly
    created error (an object of the raw realm whose prototype is the raw
    [TypeError.prototype]), and neither [getRawRef], [construct] nor
    [ErrorCreate] is called, the only call logged being that of [eval]. *)
Theorem C9_null_or_undefined_throw_escapes_sanitization
    ev sourceText (w : world St) e w1 :
  CallFunction (secureIndirectEval ev) [VString sourceText] w = (Throw e, w1) ->
  e = VNull \/ e = VUndefined ->
  exists l,
    w_heap w1 !! l = None /\
    evaluate ev sourceText w =
      (Throw (VObject l),
       mkWorld
         (<[l := error_object TypeErrorPrototype
                   (VString "cannot read properties of undefined or null")]> (w_heap w1))
         (w_envs w1)
         (w_log w ++ [EvCall (secureIndirectEval ev) [VString sourceText]])).
Proof.
  intros H He. exists (fresh (dom (w_heap w1))). split; [apply fresh_loc_unused|].
  rewrite (evaluate_on_throw _ _ _ _ _ H).
  apply CallFunction_any in H as [<- _].
  destruct He as [-> | ->]; reflexivity.
Qed.

(** X13. When the source text throws a value whose [message] and
    [constructor] can be read and the membrane has no raw counterpart for
    the constructor ([getRawRef] answers [undefined], or fails), the
    evaluator throws a newly created generic error of the raw realm (its
    prototype is the raw [Error.prototype]) whose message is the thrown
    value's message. *)
Theorem X13_unmapped_constructor_falls_back_to_generic_error
    ev sourceText (w : world St) e w1 message w2 constructor w3 r w4 :
  CallFunction (secureIndirectEval ev) [VString sourceText] w = (Throw e, w1) ->
  GetV e "message" w1 = (Normal message, w2) ->
  GetV e "constructor" w2 = (Normal constructor, w3) ->
  env_getRawRef (env ev) constructor w3 = (r, w4) ->
  r = Normal VUndefined \/ (exists v, r = Throw v) ->
  exists l w',
    evaluate ev sourceText w = (Throw (VObject l), w') /\
    w_heap w' !! l = Some (error_object ErrorPrototype message) /\
    w_heap w4 !! l = None /\
    exists calls, w_log w' = w_log w4 ++ calls ++ [EvErrorCreate message].
Proof.
  intros H Hm Hc Hr Hnone.
  rewrite (evaluate_on_throw _ _ _ _ _ H). unfold sanitize.
  rewrite (bind_Normal_eq _ _ _ _ _ Hm), (bind_Normal_eq _ _ _ _ _ Hc).
  destruct Hnone as [-> | [v ->]].
  - (* [construct(undefined, [message])] raises a TypeError, which is caught *)
    erewrite bind_Normal_eq; cycle 1.
    { erewrite try_catch_Throw_eq; [apply ErrorCreate_spec|].
      rewrite (bind_Normal_eq _ _ _ _ _ Hr). reflexivity. }
    eexists _, _. split; [reflexivity|]. simpl. repeat split.
    + by rewrite lookup_insert_eq.
    + pose proof (fresh_loc_unused
        (<[fresh (dom (w_heap w4)) :=
             error_object TypeErrorPrototype (VString "not a constructor")]> (w_heap w4)))
        as Hf.
      apply lookup_insert_None in Hf. tauto.
    + exists [EvConstruct VUndefined [message]]. by rewrite <- app_assoc.
  - erewrite bind_Normal_eq; cycle 1.
    { erewrite try_catch_Throw_eq; [apply ErrorCreate_spec|].
      apply bind_Throw_eq. exact Hr. }
    eexists _, _. split; [reflexivity|]. simpl. repeat split.
    + by rewrite lookup_insert_eq.
    + apply fresh_loc_unused.
    + by exists [].
Qed.

Lemma with_env_reads_only {A} env (f : St -> heap -> completion A * St * heap)
    (w : world St) r w' :
  (forall st h, snd (fst (f st h)) = st) ->
  with_env env f w = (r, w') ->
  w_log w' = w_log w /\ w_envs w' = w_envs w.
Proof.
  intros Hf. unfold with_env. destruct (w_envs w !! env) as [st|] eqn:Hst.
  - specialize (Hf st (w_heap w)). destruct (f st (w_heap w)) as [[r0 st'] h'].
    simpl in Hf. subst st'. intros H. inversion H; subst; simpl.
    split; [done | by apply list_insert_id].
  - apply silent_throwTypeError.
Qed.

(** C8. Provided the engine's [getRawRef] only reads the membrane (its
    contract), a call of the evaluator, whatever its outcome, leaves every
    membrane instance as it was, and none of the calls it makes is one that
    creates a membrane or registers in one ([remap], [getSecureValue]). *)
Theorem C8_evaluator_leaves_membranes_unchanged
    ev sourceText (w : world St) r w' :
  (forall v st h, snd (fst (m_getRawRef v st h)) = st) ->
  evaluate ev sourceText w = (r, w') ->
  w_envs w' = w_envs w /\
  exists calls,
    w_log w' = w_log w ++ calls /\
    Forall (fun e => writes_membrane e = false) calls.
Proof.
  intros Hro H. unfold evaluate in H.
  apply try_catch_any in H as [([] & H & ->) | (e & w1 & H & Hs)].
  - apply bind_Normal in H as (v & w1 & H & Hret). inversion Hret; subst.
    apply CallFunction_any in H as [Hl He]. split; [done|].
    eexists. split; [exact Hl | by repeat constructor].
  - assert (w_log w1 = w_log w ++ [EvCall (secureIndirectEval ev) [VString sourceText]]
            /\ w_envs w1 = w_envs w) as [Hl1 He1].
    { apply bind_any in H as [(v & H & _) | (a & w0 & _ & Hret)]; [|discriminate].
      by apply CallFunction_any in H. }
    unfold sanitize in Hs.
    apply bind_any in Hs as [(v & Hs & _) | (message & w2 & Hm & Hs)].
    { apply silent_GetV in Hs as [-> ->]. split; [done|].
      eexists. split; [exact Hl1 | by repeat constructor]. }
    apply silent_GetV in Hm as [Hl2 He2].
    apply bind_any in Hs as [(v & Hs & _) | (constructor & w3 & Hc & Hs)].
    { apply silent_GetV in Hs as [-> ->]. split; [congruence|].
      eexists. split; [rewrite Hl2; exact Hl1 | by repeat constructor]. }
    apply silent_GetV in Hc as [Hl3 He3].
    assert (w_envs w' = w_envs w3 /\
            exists calls, w_log w' = w_log w3 ++ calls /\
                          Forall (fun e => writes_membrane e = false) calls) as [He' Hl'].
    { apply bind_any in Hs as [(v & Hs & _) | (rawError & w4 & Hs & Hthrow)].
      - apply try_catch_any in Hs as [(a & _ & ?) | (x & w4 & Hs & Hfb)]; [discriminate|].
        rewrite ErrorCreate_spec in Hfb. discriminate.
      - inversion Hthrow; subst; clear Hthrow.
        apply try_catch_any in Hs as [(a & Hs & _) | (x & w4 & Hs & Hfb)].
        + apply bind_Normal in Hs as (c & w4 & Hg & Hk).
          apply bind_Normal in Hg as ([] & w5 & Hg1 & Hg2).
          apply log_spec in Hg1 as (_ & Hlg & Heg & _).
          apply with_env_reads_only in Hg2 as [Hl4 He4]; [|exact (Hro _)].
          apply construct_any in Hk as [Hl5 He5]. split; [congruence|].
          exists [EvGetRawRef (env ev) constructor; EvConstruct c [message]]. split.
          * rewrite Hl5, Hl4, Hlg. by rewrite <- app_assoc.
          * by repeat constructor.
        + rewrite ErrorCreate_spec in Hfb. inversion Hfb; subst; clear Hfb. simpl.
          apply bind_any in Hs as [(v & Hs & _) | (c & w5 & Hg & Hk)].
          * apply bind_any in Hs as [(v' & Hs & _) | ([] & w5 & Hg1 & Hg2)];
              [by apply log_spec in Hs as [? _]|].
            apply log_spec in Hg1 as (_ & Hlg & Heg & _).
            apply with_env_reads_only in Hg2 as [Hl4 He4]; [|exact (Hro _)].
            split; [congruence|].
            exists [EvGetRawRef (env ev) constructor; EvErrorCreate message]. split.
            -- rewrite Hl4, Hlg. by rewrite <- app_assoc.
            -- by repeat constructor.
          * apply bind_Normal in Hg as ([] & w6 & Hg1 & Hg2).
            apply log_spec in Hg1 as (_ & Hlg & Heg & _).
            apply with_env_reads_only in Hg2 as [Hl4 He4]; [|exact (Hro _)].
            apply construct_any in Hk as [Hl5 He5]. split; [congruence|].
            exists [EvGetRawRef (env ev) constructor; EvConstruct c [message];
                    EvErrorCreate message]. split.
            -- rewrite Hl5, Hl4, Hlg. by rewrite <- !app_assoc.
            -- by repeat constructor. }
    split; [congruence|].
    destruct Hl' as (calls & Hl' & Hcalls).
    exists (EvCall (secureIndirectEval ev) [VString sourceText] :: calls). split.
    + rewrite Hl', Hl3, Hl2, Hl1. by rewrite <- app_assoc.
    + by constructor.
Qed.

(** X1. When the source text runs to completion, the evaluator returns
    nothing: the value of the evaluation does not cross the boundary, and
    the call of [eval] is all the evaluator does. *)
Theorem X1_success_returns_nothing ev sourceText (w : world St) v w1 :
  CallFunction (secureIndirectEval ev) [VString sourceText] w = (Normal v, w1) ->
  evaluate ev sourceText w = (Normal tt, w1).
Proof.
  intros H. unfold evaluate, try_catch. by rewrite (bind_Normal_eq _ _ _ _ _ H).
Qed.

(** X2. When the thrown value's [message] and [constructor] can be read,
    the membrane resolves the constructor and constructing the resolved
    constructor on the message completes, the evaluator throws the value so
    constructed. *)
Theorem X2_mapped_constructor_builds_the_thrown_error
    ev sourceText (w : world St) e w1 message w2 constructor w3 c w4 rawError w5 :
  CallFunction (secureIndirectEval ev) [VString sourceText] w = (Throw e, w1) ->
  GetV e "message" w1 = (Normal message, w2) ->
  GetV e "constructor" w2 = (Normal constructor, w3) ->
  env_getRawRef (env ev) constructor w3 = (Normal c, w4) ->
  construct c [message] w4 = (Normal rawError, w5) ->
  evaluate ev sourceText w = (Throw rawError, w5).
Proof.
  intros H Hm Hc Hr Hk.
  rewrite (evaluate_on_throw _ _ _ _ _ H). unfold sanitize.
  rewrite (bind_Normal_eq _ _ _ _ _ Hm), (bind_Normal_eq _ _ _ _ _ Hc).
  erewrite bind_Normal_eq; [reflexivity|].
  unfold try_catch. by rewrite (bind_Normal_eq _ _ _ _ _ Hr), Hk.
Qed.

(** X3. When the constructor is resolved but constructing it fails, the
    evaluator falls back to a newly created generic error of the raw realm
    that carries the thrown value's message. *)
Theorem X3_failed_construction_falls_back_to_generic_error
    ev sourceText (w : world St) e w1 message w2 constructor w3 c w4 failure w5 :
  CallFunction (secureIndirectEval ev) [VString sourceText] w = (Throw e, w1) ->
  GetV e "message" w1 = (Normal message, w2) ->
  GetV e "constructor" w2 = (Normal constructor, w3) ->
  env_getRawRef (env ev) constructor w3 = (Normal c, w4) ->
  construct c [message] w4 = (Throw failure, w5) ->
  exists l,
    w_heap w5 !! l = None /\
    evaluate ev sourceText w =
      (Throw (VObject l),
       mkWorld (<[l := error_object ErrorPrototype message]> (w_heap w5))
               (w_envs w5) (w_log w5 ++ [EvErrorCreate message])).
Proof.
  intros H Hm Hc Hr Hk. exists (fresh (dom (w_heap w5))).
  split; [apply fresh_loc_unused|].
  rewrite (evaluate_on_throw _ _ _ _ _ H). unfold sanitize.
  rewrite (bind_Normal_eq _ _ _ _ _ Hm), (bind_Normal_eq _ _ _ _ _ Hc).
  erewrite bind_Normal_eq; [reflexivity|].
  erewrite try_catch_Throw_eq; [apply ErrorCreate_spec|].
  by rewrite (bind_Normal_eq _ _ _ _ _ Hr).
Qed.

End Evaluation.

(** ** The descriptor sets handed to the membrane *)

Section Descriptors.
Context {St : Type} {host : Host} {intr : Intrinsics}
        {membrane : MembraneEngine St} {shared : Shared}.
Local Open Scope js_scope.

Lemma remove_denylisted_lookup_ne d k :
  k ∉ denylist -> remove_denylisted d !! k = d !! k.
Proof.
  unfold denylist, remove_denylisted. rewrite !not_elem_of_cons.
  intros (? & ? & ? & ? & _). by rewrite !lookup_delete_ne.
Qed.

(** The loop over the reflective names, with the names it registered: they
    are names of the list, in the order of the list, and they are the
    names the loop deleted from the descriptor set. *)
Lemma remap_reflective_keys m env sw names d (w : world St) d' w' :
  remap_reflective m env sw names d w = (Normal d', w') ->
  exists keys refl,
    w_log w' = w_log w ++ refl /\
    keys `sublist_of` names /\
    Forall2 (fun key e => reflective_call St m env sw [key] e) keys refl /\
    forall name,
      (name ∈ keys -> d' !! name = None) /\
      (name ∉ keys -> d' !! name = d !! name).
Proof.
  revert d w. induction names as [|key rest IH]; intros d w H; simpl in H.
  - inversion H; subst. exists [], []. rewrite app_nil_r.
    split; [done|]. split; [constructor|]. split; [constructor|].
    intros name. split; [|done]. intros Hin. by apply elem_of_nil in Hin.
  - apply bind_Normal in H as (r & w1 & E1 & H).
    apply silent_GetV in E1 as [El1 _].
    apply bind_Normal in H as (both & w2 & E2 & H).
    assert (w_log w2 = w_log w1) as El2.
    { destruct (is_undefined r); [by inversion E2|].
      apply bind_Normal in E2 as (s & w2' & E2 & E2').
      apply silent_GetV in E2 as [<- _]. by inversion E2'. }
    destruct both.
    + apply bind_Normal in H as (a & w3 & E3 & H).
      destruct (silent_GetV _ _ _ _ _ E3) as [El3 _].
      apply bind_Normal in H as (b & w4 & E4 & H).
      destruct (silent_GetV _ _ _ _ _ E4) as [El4 _].
      apply bind_Normal in H as (c & w5 & E5 & H).
      destruct (silent_GetV _ _ _ _ _ E5) as [El5 _].
      apply bind_Normal in H as (dc & w6 & E6 & H).
      destruct (silent_getOwnPropertyDescriptors _ _ _ _ E6) as [El6 _].
      apply bind_Normal in H as ([] & w7 & E7 & H).
      apply env_remap_any in E7 as [El7 _].
      apply IH in H as (keys & refl & Hl & Hs & Hf & Hd).
      exists (key :: keys), (EvRemap env a b dc :: refl).
      split; [|split; [|split]].
      * rewrite Hl, El7, El6, El5, El4, El3, El2, El1. by rewrite <- app_assoc.
      * by apply sublist_skip.
      * constructor; [|exact Hf].
        exists key, a, b, c, dc, w2, w3, w4, w5, w6.
        split; [by apply list_elem_of_singleton | done].
      * intros name. destruct (Hd name) as [Hd1 Hd2]. split.
        -- intros Hin. destruct (decide (name ∈ keys)) as [Hk|Hk]; [by apply Hd1|].
           apply elem_of_cons in Hin as [->|Hin]; [|done].
           rewrite (proj2 (Hd key) Hk). apply lookup_delete_eq.
        -- intros Hn. apply not_elem_of_cons in Hn as [Hne Hn].
           rewrite (Hd2 Hn). by apply lookup_delete_ne.
    + apply IH in H as (keys & refl & Hl & Hs & Hf & Hd).
      exists keys, refl. split; [|split; [|split]]; [| |done|done].
      * rewrite Hl. congruence.
      * by apply sublist_cons.
Qed.

(** A read of the own descriptors that completes leaves the world as it is. *)
Lemma getOwnPropertyDescriptors_Normal v d (w w' : world St) :
  getOwnPropertyDescriptors v w = (Normal d, w') -> w' = w.
Proof.
  unfold getOwnPropertyDescriptors.
  destruct v; try (intros H; apply bind_Normal in H as (? & ? & _ & H); discriminate);
    try (intros H; by inversion H).
  destruct (w_heap w !! l); intros H; by inversion H.
Qed.

(** A construction that completes, cut where lines 22-46 end: in the world
    [wc] that [provision] leaves, the four descriptor sets are read and the
    membrane is created; the calls that follow are the registrations, made
    with these sets. *)
Lemma createSecureEnvironment_descriptors m dm (w : world St) ev w' :
  createSecureEnvironment m dm w = (Normal ev, w') ->
  exists realm wc wm captured dWindowProto dWindowProperties dEventTarget
         provisioning wrappedProto refl dGlobal,
    provision m w = (Normal realm, wc) /\
    (w_log wc = w_log w ++ provisioning /\
     Forall (fun e => is_membrane_call e = false) provisioning) /\
    (getOwnPropertyDescriptors (rawWindow m) wc = (Normal captured, wc) /\
     getOwnPropertyDescriptors (rawWindowProto m) wc = (Normal dWindowProto, wc) /\
     getOwnPropertyDescriptors (rawWindowPropertiesProto m) wc
       = (Normal dWindowProperties, wc) /\
     getOwnPropertyDescriptors (rawEventTargetProto m) wc = (Normal dEventTarget, wc)) /\
    new_SecureEnvironment (rawWindow m) (p_secureWindow realm) dm wc
      = (Normal (env ev), wm) /\
    w_log w' = w_log wc
      ++ [EvNewEnv (env ev) (rawWindow m) (p_secureWindow realm) dm]
      ++ document_calls (env ev) (p_secureDocument realm) (rawDocument m)
           (p_rawDocumentProto realm) wrappedProto
      ++ refl
      ++ spine_calls (env ev) m (p_secureEventTargetProto realm)
           (p_secureWindowPropertiesProto realm) (p_secureWindowProto realm)
           (p_secureWindow realm) dEventTarget dWindowProperties dWindowProto dGlobal /\
    forall name,
      (name ∈ denylist -> dGlobal !! name = None) /\
      (dGlobal !! name = None \/ dGlobal !! name = captured !! name) /\
      (name ∉ denylist -> name ∉ ReflectiveDOMObjectNames ->
       dGlobal !! name = captured !! name).
Proof.
  unfold createSecureEnvironment. intros H.
  repeat (let E := fresh "E" in
          apply bind_Normal in H as (? & ? & E & H); cbv beta zeta in H).
  inversion H; subst; clear H. simpl.
  (* the four reads and the creation of the membrane happen in one world *)
  match goal with
  | E1 : getOwnPropertyDescriptors (rawWindow m) ?wc = (Normal _, ?w1),
    E2 : getOwnPropertyDescriptors (rawWindowProto m) ?w1 = (Normal _, ?w2),
    E3 : getOwnPropertyDescriptors (rawWindowPropertiesProto m) ?w2 = (Normal _, ?w3),
    E4 : getOwnPropertyDescriptors (rawEventTargetProto m) ?w3 = (Normal _, ?w4) |- _ =>
      pose proof (getOwnPropertyDescriptors_Normal _ _ _ _ E1); subst w1;
      pose proof (getOwnPropertyDescriptors_Normal _ _ _ _ E2); subst w2;
      pose proof (getOwnPropertyDescriptors_Normal _ _ _ _ E3); subst w3;
      pose proof (getOwnPropertyDescriptors_Normal _ _ _ _ E4); subst w4;
      pose proof (conj E1 (conj E2 (conj E3 E4))) as Hcaptured
  end.
  match goal with
  | E : new_SecureEnvironment _ _ _ ?wc = (Normal _, _) |- _ =>
      pose proof (conj E I) as Hnew;
      eassert (provision m w = (Normal _, wc)) as Hprov
        by (unfold provision;
            repeat match goal with
            | E : ?c ?w0 = (Normal _, _) |- bind ?c _ ?w0 = _ =>
                rewrite (bind_Normal_eq _ _ _ _ _ E)
            end;
            reflexivity);
      eassert (exists provisioning, w_log wc = w_log w ++ provisioning /\
                 Forall (fun e => is_membrane_call e = false) provisioning)
        as (provisioning & Hlogc & Hcalm)
  end.
  { eexists (provisioning_calls _ _ _ _). split; [|unfold provisioning_calls; by repeat constructor].
    repeat match goal with
    | E : ResolveGlobal _ _ = _ |- _ => apply silent_ResolveGlobal in E as [? _]
    | E : GetV _ _ _ = _ |- _ => apply silent_GetV in E as [? _]
    | E : PutV _ _ _ _ = _ |- _ => apply silent_PutV in E as [? _]
    | E : ReflectGetPrototypeOf _ _ = _ |- _ =>
        apply silent_ReflectGetPrototypeOf in E as [? _]
    | E : CallMethod _ _ _ _ = _ |- _ => apply CallMethod_Normal in E as [? _]
    | E : CallFunction _ _ _ = _ |- _ => apply CallFunction_any in E as [? _]
    end.
    repeat match goal with Hl : w_log _ = _ |- _ => rewrite Hl; clear Hl end.
    unfold provisioning_calls. rewrite <- !app_assoc. simpl. reflexivity. }
  destruct Hnew as [Hnew _].
  repeat match goal with
  | E : ResolveGlobal _ _ = _ |- _ => clear E
  | E : GetV _ _ _ = _ |- _ => clear E
  | E : PutV _ _ _ _ = _ |- _ => clear E
  | E : ReflectGetPrototypeOf _ _ = _ |- _ => clear E
  | E : getOwnPropertyDescriptors _ _ = _ |- _ => clear E
  | E : CallMethod _ _ _ _ = _ |- _ => clear E
  | E : CallFunction _ _ _ = _ |- _ => clear E
  end.
  pose proof Hnew as Hnew'.
  apply new_SecureEnvironment_Normal in Hnew' as (_ & Hlnew & _).
  repeat match goal with
  | E : env_remap _ _ _ _ _ = _ |- _ => apply env_remap_any in E as [? _]
  | E : env_getSecureValue _ _ _ = _ |- _ => apply env_getSecureValue_Normal in E as [? _]
  | E : ReflectSetPrototypeOf _ _ _ = _ |- _ => apply ReflectSetPrototypeOf_any in E as [? _]
  | E : remap_reflective _ _ _ _ _ _ = _ |- _ =>
      apply remap_reflective_keys in E as (keys & refl & ? & Hsub & _ & Hd)
  end.
  eexists _, _, _, _, _, _, _, provisioning, _, refl, _.
  split; [exact Hprov|]. split; [by split|]. split; [exact Hcaptured|].
  split; [exact Hnew|]. split.
  - simpl. clear Hlogc.
    repeat match goal with Hl : w_log _ = _ ++ _ |- _ => rewrite Hl; clear Hl end.
    unfold document_calls, spine_calls.
    rewrite <- !app_assoc. simpl. reflexivity.
  - intros name. destruct (Hd name) as [Hd1 Hd2]. split; [|split].
    + intros Hin. destruct (decide (name ∈ keys)); [by apply Hd1|].
      rewrite Hd2 by done. by apply remove_denylisted_lookup.
    + destruct (decide (name ∈ keys)); [left; by apply Hd1|].
      rewrite Hd2 by done.
      destruct (decide (name ∈ denylist)).
      * left. by apply remove_denylisted_lookup.
      * right. by apply remove_denylisted_lookup_ne.
    + intros Hn Hr. rewrite Hd2.
      * by apply remove_denylisted_lookup_ne.
      * intros Hk. apply Hr. by eapply elem_of_sublist.
Qed.

(** X5. The descriptor set registered for the global object, against the
    own descriptors [captured] that the raw global has in the world [wc]
    that lines 22-46 leave: the world in which line 47 reads them and in
    which the membrane is then created, no membrane call having been made
    before.  A denylisted name has no descriptor in the registered set; a
    name that is neither denylisted nor in [ReflectiveDOMObjectNames] has
    exactly its descriptor of [captured]; any other name has that one or
    none.  The set is the last argument of the last call of the
    construction. *)
Theorem X5_global_descriptors_lose_only_denylisted_and_reflective_names
    m dm (w : world St) ev w' :
  createSecureEnvironment m dm w = (Normal ev, w') ->
  exists realm wc wm provisioning captured registrations dGlobal,
    provision m w = (Normal realm, wc) /\
    w_log wc = w_log w ++ provisioning /\
    Forall (fun e => is_membrane_call e = false) provisioning /\
    getOwnPropertyDescriptors (rawWindow m) wc = (Normal captured, wc) /\
    new_SecureEnvironment (rawWindow m) (p_secureWindow realm) dm wc
      = (Normal (env ev), wm) /\
    w_log w' = w_log wc
      ++ EvNewEnv (env ev) (rawWindow m) (p_secureWindow realm) dm :: registrations
      ++ [EvRemap (env ev) (p_secureWindow realm) (rawWindow m) dGlobal] /\
    forall name,
      (name ∈ denylist -> dGlobal !! name = None) /\
      (dGlobal !! name = None \/ dGlobal !! name = captured !! name) /\
      (name ∉ denylist -> name ∉ ReflectiveDOMObjectNames ->
       dGlobal !! name = captured !! name).
Proof.
  intros H.
  apply createSecureEnvironment_descriptors in H
    as (realm & wc & wm & captured & dW & dWP & dE & provisioning & wP & refl & dG
        & Hprov & (Hlogc & Hcalm) & (Hcap & _) & Hnew & Hlog & Hd).
  exists realm, wc, wm, provisioning, captured,
         (document_calls (env ev) (p_secureDocument realm) (rawDocument m)
            (p_rawDocumentProto realm) wP
          ++ refl
          ++ [EvRemap (env ev) (p_secureEventTargetProto realm) (rawEventTargetProto m) dE;
              EvRemap (env ev) (p_secureWindowPropertiesProto realm)
                (rawWindowPropertiesProto m) dWP;
              EvRemap (env ev) (p_secureWindowProto realm) (rawWindowProto m) dW]),
         dG.
  repeat (split; [done|]). split; [|exact Hd].
  rewrite Hlog. unfold spine_calls, document_calls. simpl.
  first [reflexivity | by rewrite <- !app_assoc].
Qed.

(** X6. The three spine nodes are registered with the full sets of own
    descriptors (the denylist applies to the global object alone) that the
    raw spine nodes have in the world [wc] that lines 22-46 leave: the
    world in which lines 48-50 read them and in which the membrane is then
    created, no membrane call having been made before.  The three
    registrations come after the creation of the membrane and every other
    registration but the last; what the calls in between did to the raw
    nodes is not in the sets. *)
Theorem X6_spine_descriptors_are_those_captured_before_the_membrane
    m dm (w : world St) ev w' :
  createSecureEnvironment m dm w = (Normal ev, w') ->
  exists realm wc wm provisioning later dEventTarget dWindowProperties dWindowProto last,
    provision m w = (Normal realm, wc) /\
    w_log wc = w_log w ++ provisioning /\
    Forall (fun e => is_membrane_call e = false) provisioning /\
    getOwnPropertyDescriptors (rawEventTargetProto m) wc = (Normal dEventTarget, wc) /\
    getOwnPropertyDescriptors (rawWindowPropertiesProto m) wc
      = (Normal dWindowProperties, wc) /\
    getOwnPropertyDescriptors (rawWindowProto m) wc = (Normal dWindowProto, wc) /\
    new_SecureEnvironment (rawWindow m) (p_secureWindow realm) dm wc
      = (Normal (env ev), wm) /\
    w_log w' = w_log wc
      ++ EvNewEnv (env ev) (rawWindow m) (p_secureWindow realm) dm :: later
      ++ [EvRemap (env ev) (p_secureEventTargetProto realm) (rawEventTargetProto m)
            dEventTarget;
          EvRemap (env ev) (p_secureWindowPropertiesProto realm)
            (rawWindowPropertiesProto m) dWindowProperties;
          EvRemap (env ev) (p_secureWindowProto realm) (rawWindowProto m) dWindowProto;
          last].
Proof.
  intros H.
  apply createSecureEnvironment_descriptors in H
    as (realm & wc & wm & captured & dW & dWP & dE & provisioning & wP & refl & dG
        & Hprov & (Hlogc & Hcalm) & (_ & HcW & HcWP & HcE) & Hnew & Hlog & _).
  exists realm, wc, wm, provisioning,
         (document_calls (env ev) (p_secureDocument realm) (rawDocument m)
            (p_rawDocumentProto realm) wP ++ refl),
         dE, dWP, dW,
         (EvRemap (env ev) (p_secureWindow realm) (rawWindow m) dG).
  repeat (split; [done|]).
  rewrite Hlog. unfold spine_calls, document_calls. simpl.
  first [reflexivity | by rewrite <- !app_assoc].
Qed.

End Descriptors.

(** ** Failures of the module load and of the construction *)

Section Failures.
Context {St : Type} {host : Host} {intr : Intrinsics}
        {membrane : MembraneEngine St} {shared : Shared}.
Local Open Scope js_scope.

Lemma calm_silent {A} (m : JS St A) : silent m -> calm m.
Proof.
  intros Hm w r w' H. destruct (Hm _ _ _ H) as [Hl He].
  split; [done|]. exists []. by rewrite app_nil_r.
Qed.

Lemma calm_bind {A B} (m : JS St A) (f : A -> JS St B) :
  calm m -> (forall a, calm (f a)) -> calm (bind m f).
Proof.
  intros Hm Hf w r w' H.
  apply bind_any in H as [(v & H & _) | (a & w1 & H1 & H2)].
  - exact (Hm _ _ _ H).
  - destruct (Hm _ _ _ H1) as (He1 & calls1 & Hl1 & Hc1).
    destruct (Hf a _ _ _ H2) as (He2 & calls2 & Hl2 & Hc2).
    split; [congruence|]. exists (calls1 ++ calls2).
    split; [by rewrite Hl2, Hl1, app_assoc | by apply Forall_app].
Qed.

(** A logged call that is no membrane call, followed by a silent computation. *)
Lemma calm_logged {A} e (m : JS St A) :
  is_membrane_call e = false -> silent m -> calm (bind (log e) (fun _ => m)).
Proof.
  intros He Hm w r w' H.
  apply logged_then_silent in H as [Hl Hs]; [|done].
  split; [done|]. exists [e]. split; [done | by constructor].
Qed.

Lemma calm_CallMethod this name args : calm (@CallMethod St _ _ this name args).
Proof.
  apply calm_bind; [apply calm_silent, silent_GetV|].
  intros f. apply calm_logged; [done | apply silent_Call].
Qed.

Lemma calm_CallFunction f args : calm (@CallFunction St _ _ f args).
Proof. apply calm_logged; [done | apply silent_Call]. Qed.

(** A computation that always throws ends whatever it is the first step of. *)
Lemma fails_first {A B} (m : JS St A) (f : A -> JS St B) :
  calm m -> always_throws m -> calm (bind m f) /\ always_throws (bind m f).
Proof.
  intros Hc Ht. split; intros w r w' H;
    apply bind_any in H as [(v & H & ->) | (a & w1 & H1 & _)];
    try (by destruct (Ht _ _ _ H1)); eauto.
Qed.

Lemma fails_bind {A B} (m : JS St A) (f : A -> JS St B) :
  calm m -> (forall a, calm (f a) /\ always_throws (f a)) ->
  calm (bind m f) /\ always_throws (bind m f).
Proof.
  intros Hc Hf. split.
  - apply calm_bind; [done | intros a; apply Hf].
  - intros w r w' H. apply bind_any in H as [(v & H & ->) | (a & w1 & _ & H2)]; [eauto|].
    exact (proj2 (Hf a) _ _ _ H2).
Qed.

Lemma always_throws_throw_error {A} p msg : always_throws (@throw_error St A p msg).
Proof. intros w r w' H. inversion H. eauto. Qed.

Lemma ReflectGetPrototypeOf_throws v :
  is_object v = false -> always_throws (@ReflectGetPrototypeOf St _ v).
Proof.
  intros Hv. destruct v; try discriminate; intros w r w'; apply always_throws_throw_error.
Qed.

Lemma getOwnPropertyDescriptors_null_throws :
  always_throws (@getOwnPropertyDescriptors St _ VNull).
Proof. intros w r w'. apply always_throws_throw_error. Qed.

Lemma ReflectGetPrototypeOf_Normal_object v p (w w' : world St) :
  ReflectGetPrototypeOf v w = (Normal p, w') -> is_object v = true.
Proof.
  destruct v; try done;
    intros H; by destruct (always_throws_throw_error _ _ _ _ _ H).
Qed.

(** X7. The module loads only where the global [window] is an object whose
    prototype and whose prototype's prototype are objects too: with a
    primitive, [null] or [undefined] in one of these three places the load
    throws.  The raw document and the last node of the spine are not
    checked.  A load that completes makes no call and creates no
    membrane. *)
Theorem X7_module_loads_only_over_a_chain_of_objects (w : world St) m w' :
  module_load w = (Normal m, w') ->
  is_object (rawWindow m) = true /\
  is_object (rawWindowProto m) = true /\
  is_object (rawWindowPropertiesProto m) = true /\
  w_log w' = w_log w /\ w_envs w' = w_envs w.
Proof.
  unfold module_load. intros H.
  apply bind_Normal in H as (rw & w1 & E1 & H).
  apply bind_Normal in H as (rd & w2 & E2 & H).
  apply bind_Normal in H as (p1 & w3 & E3 & H).
  apply bind_Normal in H as (p2 & w4 & E4 & H).
  apply bind_Normal in H as (p3 & w5 & E5 & H).
  inversion H; subst; clear H. simpl.
  pose proof (ReflectGetPrototypeOf_Normal_object _ _ _ _ E3).
  pose proof (ReflectGetPrototypeOf_Normal_object _ _ _ _ E4).
  pose proof (ReflectGetPrototypeOf_Normal_object _ _ _ _ E5).
  apply silent_GetV in E1 as [? ?]. apply silent_GetV in E2 as [? ?].
  apply silent_ReflectGetPrototypeOf in E3 as [? ?].
  apply silent_ReflectGetPrototypeOf in E4 as [? ?].
  apply silent_ReflectGetPrototypeOf in E5 as [? ?].
  repeat split; congruence.
Qed.

(** X8. With module constants that hold no object for the raw document, or
    [null] for the last node of the spine (the chain above the window was
    one link short at load), no construction completes: every one throws,
    and does so before the membrane is created.  It makes no call on a
    membrane and leaves the store of membranes as it was. *)
Theorem X8_unusable_constants_fail_before_the_membrane
    m dm (w : world St) r w' :
  is_object (rawDocument m) = false \/ rawEventTargetProto m = VNull ->
  createSecureEnvironment m dm w = (r, w') ->
  (exists v, r = Throw v) /\
  w_envs w' = w_envs w /\
  exists calls,
    w_log w' = w_log w ++ calls /\
    Forall (fun e => is_membrane_call e = false) calls.
Proof.
  intros Hbad H.
  assert (calm (createSecureEnvironment m dm) /\
          always_throws (createSecureEnvironment m dm)) as [Hc Ht].
  { unfold createSecureEnvironment. destruct Hbad as [Hd | He]; [|rewrite He].
    all: repeat first
      [ apply fails_first;
          [ apply calm_silent;
              first [apply silent_ReflectGetPrototypeOf
                    | apply silent_getOwnPropertyDescriptors]
          | solve [ by apply ReflectGetPrototypeOf_throws
                  | apply getOwnPropertyDescriptors_null_throws ] ]
      | apply fails_bind;
          [ first [ apply calm_CallMethod | apply calm_CallFunction
                  | apply calm_silent;
                      first [ apply silent_ResolveGlobal | apply silent_GetV
                            | apply silent_PutV | apply silent_ReflectGetPrototypeOf
                            | apply silent_getOwnPropertyDescriptors ] ]
          | intros ? ] ]. }
  split; [exact (Ht _ _ _ H) | exact (Hc _ _ _ H)].
Qed.

(** X9. Where the global object has no [document] property, on itself or
    along its prototype chain, the construction throws a newly created
    [ReferenceError] at its first step: it makes no call, creates no
    membrane, and changes nothing in the heap but for the error object. *)
Theorem X9_no_document_is_a_reference_error m dm (w : world St) :
  find_property (chain_bound (w_heap w)) (w_heap w) globalThis "document" = None ->
  exists l,
    w_heap w !! l = None /\
    createSecureEnvironment m dm w =
      (Throw (VObject l),
       mkWorld
         (<[l := error_object ReferenceErrorPrototype (VString "is not defined")]> (w_heap w))
         (w_envs w) (w_log w)).
Proof.
  intros Hnone. exists (fresh (dom (w_heap w))). split; [apply fresh_loc_unused|].
  unfold createSecureEnvironment. apply bind_Throw_eq.
  unfold ResolveGlobal. by rewrite Hnone.
Qed.

(** X10. A reflective name that reads [null] on the raw global and is
    defined on the secure global passes the test of the loop ([null] is not
    [undefined]); the loop then asks for the own descriptors of [null],
    which throws a [TypeError]: the loop ends there, without a
    registration for this name or for any name after it. *)
Theorem X10_null_on_the_raw_global_aborts_the_loop
    m env secureWindow key rest d (w w1 w2 w3 w4 w5 : world St) s a b :
  GetV (rawWindow m) key w = (Normal VNull, w1) ->
  GetV secureWindow key w1 = (Normal s, w2) ->
  is_undefined s = false ->
  GetV (rawWindow m) key w2 = (Normal a, w3) ->
  GetV secureWindow key w3 = (Normal b, w4) ->
  GetV (rawWindow m) key w4 = (Normal VNull, w5) ->
  exists l,
    w_heap w5 !! l = None /\
    remap_reflective m env secureWindow (key :: rest) d w =
      (Throw (VObject l),
       mkWorld
         (<[l := error_object TypeErrorPrototype
                   (VString "cannot convert undefined or null to object")]> (w_heap w5))
         (w_envs w) (w_log w)).
Proof.
  intros H1 H2 Hs H3 H4 H5.
  exists (fresh (dom (w_heap w5))). split; [apply fresh_loc_unused|].
  assert (w_log w5 = w_log w /\ w_envs w5 = w_envs w) as [Hl He].
  { destruct (silent_GetV _ _ _ _ _ H1) as [? ?], (silent_GetV _ _ _ _ _ H2) as [? ?],
      (silent_GetV _ _ _ _ _ H3) as [? ?], (silent_GetV _ _ _ _ _ H4) as [? ?],
      (silent_GetV _ _ _ _ _ H5) as [? ?]. split; congruence. }
  simpl. rewrite (bind_Normal_eq _ _ _ _ _ H1). simpl.
  erewrite bind_Normal_eq; cycle 1.
  { rewrite (bind_Normal_eq _ _ _ _ _ H2). reflexivity. }
  rewrite Hs. simpl.
  rewrite (bind_Normal_eq _ _ _ _ _ H3), (bind_Normal_eq _ _ _ _ _ H4),
    (bind_Normal_eq _ _ _ _ _ H5).
  rewrite <- Hl, <- He. reflexivity.
Qed.

End Failures.

(** ** Every path through the evaluator *)

Section EvaluatorPaths.
Context {St : Type} {host : Host} {intr : Intrinsics}
        {membrane : MembraneEngine St} {shared : Shared}.
Local Open Scope js_scope.

(** The handler of the outer [catch] never completes, and its calls are
    those of one of its four paths. *)
Lemma sanitize_paths ev e (w : world St) r w' :
  sanitize ev e w = (r, w') ->
  (exists v, r = Throw v) /\
  exists calls, w_log w' = w_log w ++ calls /\ sanitizing_calls (env ev) calls.
Proof.
  unfold sanitize. intros H.
  apply bind_any in H as [(v & H & ->) | (message & w1 & E1 & H)].
  { apply silent_GetV in H as [Hl _]. split; [eauto|].
    exists []. rewrite app_nil_r. split; [done | by left]. }
  apply silent_GetV in E1 as [<- _].
  apply bind_any in H as [(v & H & ->) | (constructor & w2 & E2 & H)].
  { apply silent_GetV in H as [Hl _]. split; [eauto|].
    exists []. rewrite app_nil_r. split; [done | by left]. }
  apply silent_GetV in E2 as [<- _].
  assert (exists r0 w'', try_catch
            (let* rawErrorConstructor := env_getRawRef (env ev) constructor in
             construct rawErrorConstructor [message])
            (fun _ => ErrorCreate message) w2 = (r0, w'') /\ w' = w'' /\
            exists v, r = Throw v) as (r0 & w'' & Htry & -> & Hr).
  { apply bind_any in H as [(v & H & ->) | (a & w3 & E3 & H)].
    - eauto 6.
    - inversion H; subst. eauto 6. }
  split; [exact Hr|].
  apply try_catch_any in Htry as [(a & Hbody & _) | (v & w3 & Hbody & Hhandler)].
  - apply bind_Normal in Hbody as (c & w3 & E3 & E4).
    apply env_getRawRef_any in E3 as [Hl3 _]. apply construct_any in E4 as [Hl4 _].
    exists [EvGetRawRef (env ev) constructor; EvConstruct c [message]].
    split; [by rewrite Hl4, Hl3, <- app_assoc|].
    right. exists constructor, message. right. exists c. by left.
  - rewrite ErrorCreate_spec in Hhandler. inversion Hhandler; subst; clear Hhandler. simpl.
    apply bind_any in Hbody as [(v0 & E3 & _) | (c & w4 & E3 & E4)].
    + apply env_getRawRef_any in E3 as [Hl3 _].
      exists [EvGetRawRef (env ev) constructor; EvErrorCreate message].
      split; [by rewrite Hl3, <- app_assoc|].
      right. exists constructor, message. by left.
    + apply env_getRawRef_any in E3 as [Hl3 _]. apply construct_any in E4 as [Hl4 _].
      exists [EvGetRawRef (env ev) constructor; EvConstruct c [message];
              EvErrorCreate message].
      split; [by rewrite Hl4, Hl3, <- !app_assoc|].
      right. exists constructor, message. right. exists c. by right.
Qed.

(** X11. A failure of the source text is never swallowed: when its
    evaluation throws, the evaluator throws too, whatever the thrown value
    is and whatever the reads, the membrane and the constructors answer. *)
Theorem X11_a_throwing_source_makes_the_evaluator_throw
    ev sourceText (w : world St) e w1 r w' :
  CallFunction (secureIndirectEval ev) [VString sourceText] w = (Throw e, w1) ->
  evaluate ev sourceText w = (r, w') ->
  exists v, r = Throw v.
Proof.
  intros H Hrun. rewrite (evaluate_on_throw _ _ _ _ _ H) in Hrun.
  by apply sanitize_paths in Hrun as [? _].
Qed.

(** X12. The calls of one evaluation, on every path: the secure [eval] is
    called once, first, on the source text alone; after it come no call at
    all (the evaluation completed, or the thrown value could not be read),
    or one reverse lookup followed by the construction of the raw error, by
    the creation of the generic error, or by both in this order, the
    construction and the creation being given the same message.  An
    evaluation that completes makes the call of [eval] and no other. *)
Theorem X12_calls_of_an_evaluation ev sourceText (w : world St) r w' :
  evaluate ev sourceText w = (r, w') ->
  exists calls,
    w_log w' = w_log w ++ EvCall (secureIndirectEval ev) [VString sourceText] :: calls /\
    sanitizing_calls (env ev) calls /\
    (r = Normal tt -> calls = []).
Proof.
  unfold evaluate. intros H.
  apply try_catch_any in H as [(a & Hbody & ->) | (v & w1 & Hbody & Hhandler)].
  - apply bind_Normal in Hbody as (x & w1 & E1 & E2).
    apply CallFunction_any in E1 as [Hl _]. inversion E2; subst.
    exists []. split; [done|]. split; [by left | done].
  - apply bind_any in Hbody as [(v0 & E1 & _) | (x & w2 & _ & E2)]; [|discriminate].
    apply CallFunction_any in E1 as [Hl _].
    apply sanitize_paths in Hhandler as ((v1 & ->) & calls & Hl' & Hcalls).
    exists calls. split; [by rewrite Hl', Hl, <- app_assoc|]. split; [done | discriminate].
Qed.

End EvaluatorPaths.

(** ** The membrane engine of the spec resolves what it registered *)

Section SpecMembraneFacts.
Import SpecMembrane.

Lemma lookup_raw_register_ne s p raw st :
  p <> s -> lookup_raw s (register p raw st) = lookup_raw s st.
Proof.
  intros Hne. unfold lookup_raw, register. simpl.
  by rewrite bool_decide_eq_false_2.
Qed.

Lemma wrap_keeps l o v st h v' st' h' :
  h !! l = Some o ->
  wrap v st h = (v', st', h') ->
  is_Some (h' !! l) /\ lookup_raw (VObject l) st' = lookup_raw (VObject l) st.
Proof.
  intros Hl. unfold wrap.
  destruct (distort v st) as [| | | | |l0];
    try (intros H; inversion H; subst; by eauto).
  destruct (lookup_secure (VObject l0) st); intros H; inversion H; subst; [eauto|].
  assert (fresh (dom h) <> l) as Hne.
  { intros Heq. pose proof (is_fresh (dom h)) as Hf. rewrite Heq in Hf.
    apply Hf, elem_of_dom. eauto. }
  split.
  - rewrite lookup_insert_ne; eauto.
  - apply lookup_raw_register_ne. congruence.
Qed.

Lemma wrap_descriptor_keeps l o d st h d' st' h' :
  h !! l = Some o ->
  wrap_descriptor d st h = (d', st', h') ->
  is_Some (h' !! l) /\ lookup_raw (VObject l) st' = lookup_raw (VObject l) st.
Proof.
  intros Hl. destruct d as [v wr en co | g sx en co]; simpl.
  - destruct (wrap v st h) as [[v1 st1] h1] eqn:E1. intros H; inversion H; subst.
    by eapply wrap_keeps.
  - destruct (wrap g st h) as [[g1 st1] h1] eqn:E1.
    destruct (wrap sx st1 h1) as [[s2 st2] h2] eqn:E2. intros H; inversion H; subst.
    destruct (wrap_keeps _ _ _ _ _ _ _ _ Hl E1) as [[o1 Hl1] Hr1].
    destruct (wrap_keeps _ _ _ _ _ _ _ _ Hl1 E2) as [Hl2 Hr2].
    split; [done | congruence].
Qed.

Lemma install_one_keeps l o node k d h :
  h !! l = Some o -> is_Some (install_one node k d h !! l).
Proof.
  intros Hl. destruct node; simpl; eauto. unfold define_own.
  destruct (h !! l0) as [o0|] eqn:E; [|eauto].
  destruct (decide (l0 = l)) as [->|Hne].
  - rewrite lookup_insert_eq. eauto.
  - rewrite lookup_insert_ne; eauto.
Qed.

Lemma install_keeps l o node ds st h st' h' :
  h !! l = Some o ->
  install node ds st h = (st', h') ->
  lookup_raw (VObject l) st' = lookup_raw (VObject l) st.
Proof.
  revert o st h. induction ds as [|[k d] ds IH]; intros o st h Hl; simpl.
  - intros H; by inversion H.
  - destruct (wrap_descriptor d st h) as [[d1 st1] h1] eqn:E1. intros H.
    destruct (wrap_descriptor_keeps _ _ _ _ _ _ _ _ Hl E1) as [[o1 Hl1] Hr1].
    destruct (install_one_keeps l o1 node k d1 h1 Hl1) as [o2 Hl2].
    rewrite (IH _ _ _ Hl2 H). exact Hr1.
Qed.

(** A pair registered with the secure node first resolves in the reverse
    direction: after [remap(secureNode, rawNode, descriptors)] on a secure
    node of the heap, [getRawRef(secureNode)] is [rawNode]. *)
Lemma remap_then_getRawRef l o rawNode descriptors st h st' h' :
  h !! l = Some o ->
  remap (VObject l) rawNode descriptors st h = (Normal tt, st', h') ->
  getRawRef (VObject l) st' h' = (Normal rawNode, st', h').
Proof.
  intros Hl. unfold remap.
  destruct (install _ _ _ _) as [st1 h1] eqn:E. intros H; inversion H; subst.
  unfold getRawRef. rewrite (install_keeps _ _ _ _ _ _ _ _ Hl E).
  unfold lookup_raw, register. simpl. by rewrite bool_decide_eq_true_2.
Qed.

End SpecMembraneFacts.

(** ** The module run in the small browser *)

Module Scenario.
Import Browser.
Local Open Scope positive_scope.
Local Open Scope list_scope.

(** A run is settled by computing its completion alone. *)
Lemma run_eq {A B} (p : A * B) (a : A) : fst p = a -> p = (a, snd p).
Proof. destruct p. simpl. congruence. Qed.

Lemma load_world0 : module_load world0 = (Normal constants, world0).
Proof. vm_compute. reflexivity. Qed.

Lemma construct_world0 :
  createSecureEnvironment constants None world0 = (Normal evaluator, world1).
Proof. refine (run_eq _ _ _). vm_compute. reflexivity. Qed.

Lemma construct_world0_rewired :
  createSecureEnvironment constants None world0_rewired = (Normal evaluator, world1_rewired).
Proof. refine (run_eq _ _ _). vm_compute. reflexivity. Qed.

(** C1 fails on the code.  In the small browser [Node] is a reflective name defined
    on both globals: the raw global holds the raw-realm object 22, the
    secure global the secure-realm object 35.  The loop calls
    [remap(22, 35, ...)]: the raw value is the first (secure) argument and
    the secure value the second (raw) one, the other way round from the
    five fixed registrations of the same log; the descriptors are those of
    the raw value, and the name is gone from the global's set. *)
Theorem C1_reflective_pair_registered_raw_first :
  fst (GetV (rawWindow constants) "Node" world1) = Normal (VObject 22) /\
  fst (GetV (VObject 28) "Node" world1) = Normal (VObject 35) /\
  realm_of (w_heap world1) (VObject 22) = Some RawRealm /\
  realm_of (w_heap world1) (VObject 35) = Some SecureRealm /\
  remap_arguments (w_log world1) =
    [(VObject 32, VObject 5); (VObject 22, VObject 35); (VObject 23, VObject 36);
     (VObject 31, VObject 4); (VObject 30, VObject 3); (VObject 29, VObject 2);
     (VObject 28, VObject 1)] /\
  (realm_of (w_heap world1) ∘ fst) <$> remap_arguments (w_log world1) =
    [Some SecureRealm; Some RawRealm; Some RawRealm; Some SecureRealm;
     Some SecureRealm; Some SecureRealm; Some SecureRealm] /\
  remap_calls (w_log world1) !! 1%nat =
    (fun o => (VObject 22, VObject 35, o_props o)) <$> w_heap world0 !! 22 /\
  (last_remap_descriptors (w_log world1) ≫= fun d => d !! "Node") = None.
Proof. vm_compute. repeat split; try reflexivity. Qed.

(** C2 fails on the code.  After the construction, the secure global's [Node] is the
    secure object 35 and the raw global's [Node] the raw object 22, yet the
    reverse lookup of the secure one finds nothing: [getRawRef(35)] is
    [undefined], not 22.  The pair went into the membrane the other way
    round, so it is the raw value that resolves, to the secure one. *)
Theorem C2_reverse_lookup_of_reflective_global_is_undefined :
  fst (GetV (VObject 28) "Node" world1) = Normal (VObject 35) /\
  fst (GetV (rawWindow constants) "Node" world1) = Normal (VObject 22) /\
  fst (env_getRawRef (env evaluator) (VObject 35) world1) = Normal VUndefined /\
  fst (env_getRawRef (env evaluator) (VObject 22) world1) = Normal (VObject 35) /\
  SpecMembrane.pairs <$> w_envs world1 !! 0%nat =
    Some [(VObject 43, VObject 24); (VObject 28, VObject 1); (VObject 42, VObject 25);
          (VObject 29, VObject 2); (VObject 30, VObject 3); (VObject 41, VObject 21);
          (VObject 31, VObject 4); (VObject 23, VObject 36); (VObject 22, VObject 35);
          (VObject 40, VObject 6); (VObject 32, VObject 5)].
Proof. vm_compute. repeat split; reflexivity. Qed.

(** C3 fails on the code.  Two source texts whose failure is not sanitized.  The
    first throws an object whose [message] getter throws the object itself:
    the read of [message] stands outside the inner [try], so the evaluator
    throws that very secure-realm object to its caller.  The second throws
    [null]: the evaluator throws a [TypeError] raised by the read, with
    another message than the (absent) one of the thrown value.  In both runs
    the only call logged is that of [eval]: neither [getRawRef], [construct]
    nor [ErrorCreate] is reached. *)
Theorem C3_secure_value_escapes_the_evaluator :
  fst (CallFunction (secureIndirectEval evaluator) [VString leak] world1)
    = Throw (VObject 45) /\
  fst (evaluate evaluator leak world1) = Throw (VObject 45) /\
  realm_of (w_heap (after_evaluate leak)) (VObject 45) = Some SecureRealm /\
  new_events world1 (after_evaluate leak)
    = [EvCall (secureIndirectEval evaluator) [VString leak]] /\
  fst (evaluate evaluator "throw null" world1) = Throw (VObject 44) /\
  w_heap (after_evaluate "throw null") !! 44 =
    Some (error_object TypeErrorPrototype
            (VString "cannot read properties of undefined or null")) /\
  new_events world1 (after_evaluate "throw null")
    = [EvCall (secureIndirectEval evaluator) [VString "throw null"]].
Proof. vm_compute. repeat split; reflexivity. Qed.

(** C6 fails on the code.  The source text [leak] throws an object that has
    no [constructor] at all: the read gives [undefined], and the membrane
    has no raw counterpart for it ([getRawRef] answers [undefined]).  Yet
    the evaluator does not throw a generic raw error: the read of
    [message], which stands before the inner [try], throws, and what the
    evaluator throws is the thrown object itself, an object of the secure
    realm whose prototype is not the raw [Error.prototype].  The only call
    logged is that of [eval]: [ErrorCreate] is never called. *)
Theorem C6_unmapped_constructor_without_generic_error :
  fst (CallFunction (secureIndirectEval evaluator) [VString leak] world1)
    = Throw (VObject 45) /\
  fst (GetV (VObject 45) "constructor" (after_eval leak)) = Normal VUndefined /\
  fst (env_getRawRef (env evaluator) VUndefined (after_eval leak)) = Normal VUndefined /\
  fst (GetV (VObject 45) "message" (after_eval leak)) = Throw (VObject 45) /\
  fst (evaluate evaluator leak world1) = Throw (VObject 45) /\
  realm_of (w_heap (after_evaluate leak)) (VObject 45) = Some SecureRealm /\
  o_proto <$> w_heap (after_evaluate leak) !! 45 = Some VNull /\
  new_events world1 (after_evaluate leak)
    = [EvCall (secureIndirectEval evaluator) [VString leak]].
Proof. vm_compute. repeat split; reflexivity. Qed.

(** *** The theorems at the small browser *)

Lemma eval_throw_null :
  CallFunction (secureIndirectEval evaluator) [VString "throw null"] world1
    = (Throw VNull, after_eval "throw null").
Proof. refine (run_eq _ _ _). vm_compute. reflexivity. Qed.

Lemma eval_boom :
  CallFunction (secureIndirectEval evaluator) [VString boom] world1
    = (Throw (VObject 45), after_eval boom).
Proof. refine (run_eq _ _ _). vm_compute. reflexivity. Qed.

Lemma boom_message :
  GetV (VObject 45) "message" (after_eval boom)
    = (Normal (VString "boom"), after_message boom (VObject 45)).
Proof. refine (run_eq _ _ _). vm_compute. reflexivity. Qed.

Lemma boom_constructor :
  GetV (VObject 45) "constructor" (after_message boom (VObject 45))
    = (Normal (VObject 44), after_constructor boom (VObject 45)).
Proof. refine (run_eq _ _ _). vm_compute. reflexivity. Qed.

Lemma boom_getRawRef :
  env_getRawRef (env evaluator) (VObject 44) (after_constructor boom (VObject 45))
    = (Normal VUndefined, after_getRawRef boom (VObject 45) (VObject 44)).
Proof. refine (run_eq _ _ _). vm_compute. reflexivity. Qed.

Lemma evaluate_bad :
  evaluate evaluator bad world1 = (Throw (VObject 46), after_evaluate bad).
Proof. refine (run_eq _ _ _). vm_compute. reflexivity. Qed.

Lemma C4_witness :
  createSecureEnvironment constants None world0 = (Normal evaluator, world1) /\
  exists earlier secureWindow captured dGlobal,
    w_log world1 = w_log world0 ++ earlier
               ++ [EvRemap (env evaluator) secureWindow (rawWindow constants) dGlobal] /\
    (exists w1 w2 : world SpecMembrane.state,
       getOwnPropertyDescriptors (rawWindow constants) w1 = (Normal captured, w2)) /\
    dGlobal ⊆ remove_denylisted captured /\
    forall name, name ∈ denylist -> dGlobal !! name = None.
Proof.
  split; [exact construct_world0|].
  exact (C4_global_registration_has_no_denylisted_name
           constants None world0 evaluator world1 construct_world0).
Defined.



(** The module is loaded in [world0]; the construction runs after the
    trusted document's code rewired the prototype chain of its global. *)
Lemma C10_witness :
  module_load world0 = (Normal constants, world0) /\
  createSecureEnvironment constants None world0_rewired = (Normal evaluator, world1_rewired) /\
  (exists w1 w2 : world SpecMembrane.state,
     GetV (VObject globalThis) "window" world0 = (Normal (rawWindow constants), w1) /\
     GetV (VObject globalThis) "document" w1 = (Normal (rawDocument constants), w2) /\
     ReflectGetPrototypeOf (rawWindow constants) w2 = (Normal (rawWindowProto constants), w2) /\
     ReflectGetPrototypeOf (rawWindowProto constants) w2
       = (Normal (rawWindowPropertiesProto constants), w2) /\
     ReflectGetPrototypeOf (rawWindowPropertiesProto constants) w2
       = (Normal (rawEventTargetProto constants), w2)) /\
  fixed_raw_nodes (new_events world0_rewired world1_rewired) =
    [rawDocument constants; rawEventTargetProto constants;
     rawWindowPropertiesProto constants; rawWindowProto constants; rawWindow constants] /\
  exists secureWindow,
    EvNewEnv (env evaluator) (rawWindow constants) secureWindow None
      ∈ new_events world0_rewired world1_rewired.
Proof.
  split; [exact load_world0|]. split; [exact construct_world0_rewired|].
  exact (C10_raw_nodes_fixed_at_module_load
           world0 constants world0 None world0_rewired evaluator world1_rewired
           load_world0 construct_world0_rewired).
Defined.

Lemma C9_witness :
  CallFunction (secureIndirectEval evaluator) [VString "throw null"] world1
    = (Throw VNull, after_eval "throw null") /\
  (VNull = VNull \/ VNull = VUndefined) /\
  exists l,
    w_heap (after_eval "throw null") !! l = None /\
    evaluate evaluator "throw null" world1 =
      (Throw (VObject l),
       mkWorld
         (<[l := error_object TypeErrorPrototype
                   (VString "cannot read properties of undefined or null")]>
            (w_heap (after_eval "throw null")))
         (w_envs (after_eval "throw null"))
         (w_log world1 ++ [EvCall (secureIndirectEval evaluator) [VString "throw null"]])).
Proof.
  split; [exact eval_throw_null|]. split; [left; reflexivity|].
  exact (C9_null_or_undefined_throw_escapes_sanitization
           evaluator "throw null" world1 VNull (after_eval "throw null")
           eval_throw_null (or_introl eq_refl)).
Defined.

Lemma X13_witness :
  CallFunction (secureIndirectEval evaluator) [VString boom] world1
    = (Throw (VObject 45), after_eval boom) /\
  GetV (VObject 45) "message" (after_eval boom)
    = (Normal (VString "boom"), after_message boom (VObject 45)) /\
  GetV (VObject 45) "constructor" (after_message boom (VObject 45))
    = (Normal (VObject 44), after_constructor boom (VObject 45)) /\
  env_getRawRef (env evaluator) (VObject 44) (after_constructor boom (VObject 45))
    = (Normal VUndefined, after_getRawRef boom (VObject 45) (VObject 44)) /\
  exists l w',
    evaluate evaluator boom world1 = (Throw (VObject l), w') /\
    w_heap w' !! l = Some (error_object ErrorPrototype (VString "boom")) /\
    w_heap (after_getRawRef boom (VObject 45) (VObject 44)) !! l = None /\
    exists calls,
      w_log w' = w_log (after_getRawRef boom (VObject 45) (VObject 44)) ++ calls
                 ++ [EvErrorCreate (VString "boom")].
Proof.
  split; [exact eval_boom|]. split; [exact boom_message|].
  split; [exact boom_constructor|]. split; [exact boom_getRawRef|].
  exact (X13_unmapped_constructor_falls_back_to_generic_error
           evaluator boom world1 (VObject 45) (after_eval boom) (VString "boom")
           (after_message boom (VObject 45)) (VObject 44)
           (after_constructor boom (VObject 45)) (Normal VUndefined)
           (after_getRawRef boom (VObject 45) (VObject 44))
           eval_boom boom_message boom_constructor boom_getRawRef (or_introl eq_refl)).
Defined.

Lemma C8_witness :
  (forall v st h, snd (fst (@m_getRawRef _ SpecMembrane.engine v st h)) = st) /\
  evaluate evaluator bad world1 = (Throw (VObject 46), after_evaluate bad) /\
  w_envs (after_evaluate bad) = w_envs world1 /\
  exists calls,
    w_log (after_evaluate bad) = w_log world1 ++ calls /\
    Forall (fun e => writes_membrane e = false) calls.
Proof.
  split; [intros v st h; reflexivity|]. split; [exact evaluate_bad|].
  exact (C8_evaluator_leaves_membranes_unchanged
           evaluator bad world1 (Throw (VObject 46)) (after_evaluate bad)
           (fun v st h => eq_refl) evaluate_bad).
Defined.

Lemma eval_harmless :
  CallFunction (secureIndirectEval evaluator) [VString "void 0"] world1
    = (Normal VUndefined, after_eval "void 0").
Proof. refine (run_eq _ _ _). vm_compute. reflexivity. Qed.

Lemma X1_witness :
  CallFunction (secureIndirectEval evaluator) [VString "void 0"] world1
    = (Normal VUndefined, after_eval "void 0") /\
  evaluate evaluator "void 0" world1 = (Normal tt, after_eval "void 0").
Proof.
  split; [exact eval_harmless|].
  exact (X1_success_returns_nothing evaluator "void 0" world1 VUndefined
           (after_eval "void 0") eval_harmless).
Defined.

Lemma eval_wrapped :
  CallFunction (secureIndirectEval evaluator) [VString wrapped] world1
    = (Throw (VObject 44), after_eval wrapped).
Proof. refine (run_eq _ _ _). vm_compute. reflexivity. Qed.

Lemma wrapped_message :
  GetV (VObject 44) "message" (after_eval wrapped)
    = (Normal (VString "wrapped"), after_message wrapped (VObject 44)).
Proof. refine (run_eq _ _ _). vm_compute. reflexivity. Qed.

Lemma wrapped_constructor :
  GetV (VObject 44) "constructor" (after_message wrapped (VObject 44))
    = (Normal (VObject 43), after_constructor wrapped (VObject 44)).
Proof. refine (run_eq _ _ _). vm_compute. reflexivity. Qed.

Lemma wrapped_getRawRef :
  env_getRawRef (env evaluator) (VObject 43) (after_constructor wrapped (VObject 44))
    = (Normal (VObject 24), after_getRawRef wrapped (VObject 44) (VObject 43)).
Proof. refine (run_eq _ _ _). vm_compute. reflexivity. Qed.

Lemma wrapped_construct :
  construct (VObject 24) [VString "wrapped"]
      (after_getRawRef wrapped (VObject 44) (VObject 43))
    = (Normal (VObject 45),
       after_construct wrapped (VObject 44) (VObject 43) (VObject 24) (VString "wrapped")).
Proof. refine (run_eq _ _ _). vm_compute. reflexivity. Qed.

Lemma X2_witness :
  CallFunction (secureIndirectEval evaluator) [VString wrapped] world1
    = (Throw (VObject 44), after_eval wrapped) /\
  evaluate evaluator wrapped world1
    = (Throw (VObject 45),
       after_construct wrapped (VObject 44) (VObject 43) (VObject 24) (VString "wrapped")).
Proof.
  split; [exact eval_wrapped|].
  exact (X2_mapped_constructor_builds_the_thrown_error
           evaluator wrapped world1 (VObject 44) (after_eval wrapped) (VString "wrapped")
           (after_message wrapped (VObject 44)) (VObject 43)
           (after_constructor wrapped (VObject 44)) (VObject 24)
           (after_getRawRef wrapped (VObject 44) (VObject 43)) (VObject 45)
           (after_construct wrapped (VObject 44) (VObject 43) (VObject 24) (VString "wrapped"))
           eval_wrapped wrapped_message wrapped_constructor wrapped_getRawRef
           wrapped_construct).
Defined.

Lemma eval_illegal :
  CallFunction (secureIndirectEval evaluator) [VString illegal] world1
    = (Throw (VObject 44), after_eval illegal).
Proof. refine (run_eq _ _ _). vm_compute. reflexivity. Qed.

Lemma illegal_message :
  GetV (VObject 44) "message" (after_eval illegal)
    = (Normal (VString "illegal"), after_message illegal (VObject 44)).
Proof. refine (run_eq _ _ _). vm_compute. reflexivity. Qed.

Lemma illegal_constructor :
  GetV (VObject 44) "constructor" (after_message illegal (VObject 44))
    = (Normal (VObject 42), after_constructor illegal (VObject 44)).
Proof. refine (run_eq _ _ _). vm_compute. reflexivity. Qed.

Lemma illegal_getRawRef :
  env_getRawRef (env evaluator) (VObject 42) (after_constructor illegal (VObject 44))
    = (Normal (VObject 25), after_getRawRef illegal (VObject 44) (VObject 42)).
Proof. refine (run_eq _ _ _). vm_compute. reflexivity. Qed.

Lemma illegal_construct :
  construct (VObject 25) [VString "illegal"]
      (after_getRawRef illegal (VObject 44) (VObject 42))
    = (Throw (VObject 45),
       after_construct illegal (VObject 44) (VObject 42) (VObject 25) (VString "illegal")).
Proof. refine (run_eq _ _ _). vm_compute. reflexivity. Qed.

Lemma X3_witness :
  construct (VObject 25) [VString "illegal"]
      (after_getRawRef illegal (VObject 44) (VObject 42))
    = (Throw (VObject 45),
       after_construct illegal (VObject 44) (VObject 42) (VObject 25) (VString "illegal")) /\
  exists l,
    w_heap (after_construct illegal (VObject 44) (VObject 42) (VObject 25)
              (VString "illegal")) !! l = None /\
    evaluate evaluator illegal world1 =
      (Throw (VObject l),
       mkWorld
         (<[l := error_object ErrorPrototype (VString "illegal")]>
            (w_heap (after_construct illegal (VObject 44) (VObject 42) (VObject 25)
                       (VString "illegal"))))
         (w_envs (after_construct illegal (VObject 44) (VObject 42) (VObject 25)
                    (VString "illegal")))
         (w_log (after_construct illegal (VObject 44) (VObject 42) (VObject 25)
                   (VString "illegal")) ++ [EvErrorCreate (VString "illegal")])).
Proof.
  split; [exact illegal_construct|].
  exact (X3_failed_construction_falls_back_to_generic_error
           evaluator illegal world1 (VObject 44) (after_eval illegal) (VString "illegal")
           (after_message illegal (VObject 44)) (VObject 42)
           (after_constructor illegal (VObject 44)) (VObject 25)
           (after_getRawRef illegal (VObject 44) (VObject 42)) (VObject 45)
           (after_construct illegal (VObject 44) (VObject 42) (VObject 25) (VString "illegal"))
           eval_illegal illegal_message illegal_constructor illegal_getRawRef
           illegal_construct).
Defined.

Lemma X4_witness :
  createSecureEnvironment constants None world0 = (Normal evaluator, world1) /\
  env evaluator = length (w_envs world0) /\
  exists st, w_envs world1 = w_envs world0 ++ [st].
Proof.
  split; [exact construct_world0|].
  exact (X4_construction_adds_one_membrane
           constants None world0 evaluator world1 construct_world0).
Defined.

(** *** The descriptor sets, the failures and the evaluator's paths at the
    small browser *)

Lemma X5_witness :
  createSecureEnvironment constants None world0 = (Normal evaluator, world1) /\
  exists realm wc wm provisioning captured registrations dGlobal,
    provision constants world0 = (Normal realm, wc) /\
    w_log wc = w_log world0 ++ provisioning /\
    Forall (fun e => is_membrane_call e = false) provisioning /\
    getOwnPropertyDescriptors (rawWindow constants) wc = (Normal captured, wc) /\
    new_SecureEnvironment (rawWindow constants) (p_secureWindow realm) None wc
      = (Normal (env evaluator), wm) /\
    w_log world1 = w_log wc
      ++ EvNewEnv (env evaluator) (rawWindow constants) (p_secureWindow realm) None
           :: registrations
      ++ [EvRemap (env evaluator) (p_secureWindow realm) (rawWindow constants) dGlobal] /\
    forall name,
      (name ∈ denylist -> dGlobal !! name = None) /\
      (dGlobal !! name = None \/ dGlobal !! name = captured !! name) /\
      (name ∉ denylist -> name ∉ ReflectiveDOMObjectNames ->
       dGlobal !! name = captured !! name).
Proof.
  split; [exact construct_world0|].
  exact (X5_global_descriptors_lose_only_denylisted_and_reflective_names
           constants None world0 evaluator world1 construct_world0).
Defined.

Lemma X6_witness :
  createSecureEnvironment constants None world0 = (Normal evaluator, world1) /\
  exists realm wc wm provisioning later dEventTarget dWindowProperties dWindowProto last,
    provision constants world0 = (Normal realm, wc) /\
    w_log wc = w_log world0 ++ provisioning /\
    Forall (fun e => is_membrane_call e = false) provisioning /\
    getOwnPropertyDescriptors (rawEventTargetProto constants) wc
      = (Normal dEventTarget, wc) /\
    getOwnPropertyDescriptors (rawWindowPropertiesProto constants) wc
      = (Normal dWindowProperties, wc) /\
    getOwnPropertyDescriptors (rawWindowProto constants) wc = (Normal dWindowProto, wc) /\
    new_SecureEnvironment (rawWindow constants) (p_secureWindow realm) None wc
      = (Normal (env evaluator), wm) /\
    w_log world1 = w_log wc
      ++ EvNewEnv (env evaluator) (rawWindow constants) (p_secureWindow realm) None :: later
      ++ [EvRemap (env evaluator) (p_secureEventTargetProto realm)
            (rawEventTargetProto constants) dEventTarget;
          EvRemap (env evaluator) (p_secureWindowPropertiesProto realm)
            (rawWindowPropertiesProto constants) dWindowProperties;
          EvRemap (env evaluator) (p_secureWindowProto realm) (rawWindowProto constants)
            dWindowProto;
          last].
Proof.
  split; [exact construct_world0|].
  exact (X6_spine_descriptors_are_those_captured_before_the_membrane
           constants None world0 evaluator world1 construct_world0).
Defined.

Lemma X7_witness :
  module_load world0 = (Normal constants, world0) /\
  is_object (rawWindow constants) = true /\
  is_object (rawWindowProto constants) = true /\
  is_object (rawWindowPropertiesProto constants) = true /\
  w_log world0 = w_log world0 /\ w_envs world0 = w_envs world0.
Proof.
  split; [exact load_world0|].
  exact (X7_module_loads_only_over_a_chain_of_objects world0 constants world0 load_world0).
Defined.

(** The module loads on the page whose spine is one link short, with [null]
    for the last node; the construction there provisions the realm, removes
    the iframe and then throws. *)
Lemma load_short_spine :
  module_load world0_short_spine = (Normal constants_short_spine, world0_short_spine).
Proof. vm_compute. reflexivity. Qed.

Lemma construct_short_spine :
  createSecureEnvironment constants_short_spine None world0_short_spine
    = (Throw (VObject 40), after_short_spine).
Proof. refine (run_eq _ _ _). vm_compute. reflexivity. Qed.

Lemma X8_witness :
  (is_object (rawDocument constants_short_spine) = false \/
   rawEventTargetProto constants_short_spine = VNull) /\
  createSecureEnvironment constants_short_spine None world0_short_spine
    = (Throw (VObject 40), after_short_spine) /\
  (exists v, (Throw (VObject 40) : completion Evaluator) = Throw v) /\
  w_envs after_short_spine = w_envs world0_short_spine /\
  exists calls,
    w_log after_short_spine = w_log world0_short_spine ++ calls /\
    Forall (fun e => is_membrane_call e = false) calls.
Proof.
  split; [right; reflexivity|]. split; [exact construct_short_spine|].
  exact (X8_unusable_constants_fail_before_the_membrane
           constants_short_spine None world0_short_spine (Throw (VObject 40))
           after_short_spine (or_intror eq_refl) construct_short_spine).
Defined.

Lemma no_document :
  find_property (chain_bound (w_heap world0_no_document)) (w_heap world0_no_document)
    globalThis "document" = None.
Proof. vm_compute. reflexivity. Qed.

Lemma X9_witness :
  find_property (chain_bound (w_heap world0_no_document)) (w_heap world0_no_document)
    globalThis "document" = None /\
  exists l,
    w_heap world0_no_document !! l = None /\
    createSecureEnvironment constants None world0_no_document =
      (Throw (VObject l),
       mkWorld
         (<[l := error_object ReferenceErrorPrototype (VString "is not defined")]>
            (w_heap world0_no_document))
         (w_envs world0_no_document) (w_log world0_no_document)).
Proof.
  split; [exact no_document|].
  exact (X9_no_document_is_a_reference_error constants None world0_no_document no_document).
Defined.

Lemma null_opener_raw :
  GetV (rawWindow constants) "opener" world_null_opener = (Normal VNull, world_null_opener).
Proof. vm_compute. reflexivity. Qed.

Lemma null_opener_secure :
  GetV (VObject 2) "opener" world_null_opener = (Normal (VObject 2), world_null_opener).
Proof. vm_compute. reflexivity. Qed.

Lemma X10_witness :
  GetV (rawWindow constants) "opener" world_null_opener = (Normal VNull, world_null_opener) /\
  GetV (VObject 2) "opener" world_null_opener = (Normal (VObject 2), world_null_opener) /\
  is_undefined (VObject 2) = false /\
  exists l,
    w_heap world_null_opener !! l = None /\
    remap_reflective constants 0 (VObject 2) ["opener"; "Node"] ∅ world_null_opener =
      (Throw (VObject l),
       mkWorld
         (<[l := error_object TypeErrorPrototype
                   (VString "cannot convert undefined or null to object")]>
            (w_heap world_null_opener))
         (w_envs world_null_opener) (w_log world_null_opener)).
Proof.
  split; [exact null_opener_raw|]. split; [exact null_opener_secure|].
  split; [reflexivity|].
  exact (X10_null_on_the_raw_global_aborts_the_loop
           constants 0%nat (VObject 2) "opener" ["Node"] ∅
           world_null_opener world_null_opener world_null_opener world_null_opener
           world_null_opener world_null_opener (VObject 2) VNull (VObject 2)
           null_opener_raw null_opener_secure eq_refl null_opener_raw null_opener_secure
           null_opener_raw).
Defined.

Lemma eval_bad :
  CallFunction (secureIndirectEval evaluator) [VString bad] world1
    = (Throw (VObject 44), after_eval bad).
Proof. refine (run_eq _ _ _). vm_compute. reflexivity. Qed.

Lemma X11_witness :
  CallFunction (secureIndirectEval evaluator) [VString bad] world1
    = (Throw (VObject 44), after_eval bad) /\
  evaluate evaluator bad world1 = (Throw (VObject 46), after_evaluate bad) /\
  exists v, (Throw (VObject 46) : completion unit) = Throw v.
Proof.
  split; [exact eval_bad|]. split; [exact evaluate_bad|].
  exact (X11_a_throwing_source_makes_the_evaluator_throw
           evaluator bad world1 (VObject 44) (after_eval bad) (Throw (VObject 46))
           (after_evaluate bad) eval_bad evaluate_bad).
Defined.

Lemma evaluate_wrapped :
  evaluate evaluator wrapped world1 = (Throw (VObject 45), after_evaluate wrapped).
Proof. refine (run_eq _ _ _). vm_compute. reflexivity. Qed.

Lemma X12_witness :
  evaluate evaluator wrapped world1 = (Throw (VObject 45), after_evaluate wrapped) /\
  exists calls,
    w_log (after_evaluate wrapped) =
      w_log world1 ++ EvCall (secureIndirectEval evaluator) [VString wrapped] :: calls /\
    sanitizing_calls (env evaluator) calls /\
    (Throw (VObject 45) = Normal tt -> calls = []).
Proof.
  split; [exact evaluate_wrapped|].
  exact (X12_calls_of_an_evaluation
           evaluator wrapped world1 (Throw (VObject 45)) (after_evaluate wrapped)
           evaluate_wrapped).
Defined.

End Scenario.
